(** * Association executer of the SSM agent

    A shallow embedding of [agent/association/executer/executer.go]:
    the status aggregator [buildOutput] with its helper [filterByStatus],
    and the lifecycle routines [ExecutePendingDocument],
    [ExecuteInProgressDocument], [parseAndPersistReplyContents],
    [pluginExecutionReport] and [associationExecutionReport].

    Go maps are [gmap]s, Go [int] is [Z], Go strings are [string]s.  The
    collaborators that live in other packages (status service, document
    store, plugin engine, worker pool, scheduler signal, JSON marshalling)
    are driven through a record of oracles and observed through a trace of
    the calls the executer makes.  Debug and info log lines change nothing
    the executer or a collaborator can observe and are left out; error log
    lines are kept in the trace. *)

From Stdlib Require Import ZArith Lia Ascii String.
From stdpp Require Import gmap strings list fin_maps pretty.

Open Scope Z_scope.

(** ** Contract types the executer reads *)

Module contracts.

(** [type ResultStatus string]. *)
Definition ResultStatus := string.

(** Modelled from the spec: the values of the [ResultStatus] constants
    ([contracts] is a package outside the embedded file).  The closed set
    of section 3 names success, success-and-reboot, passed-and-reboot,
    failed and timed-out; the executer refers to exactly these five.  The
    same set names not-started, which the executer never mentions. *)
Definition ResultStatusSuccess : ResultStatus := "Success".
Definition ResultStatusSuccessAndReboot : ResultStatus := "SuccessAndReboot".
Definition ResultStatusPassedAndReboot : ResultStatus := "PassedAndReboot".
Definition ResultStatusFailed : ResultStatus := "Failed".
Definition ResultStatusTimedOut : ResultStatus := "TimedOut".
Definition ResultStatusNotStarted : ResultStatus := "NotStarted".

(** Modelled from the spec: a plugin's runtime status is a status code
    plus output text and timing.  Only [Status] is read by the executer. *)
Record PluginRuntimeStatus := {
  Status : ResultStatus;
  Code : Z;
  Output : string;
  StartDateTime : string;
  EndDateTime : string
}.

(** Modelled from the spec: the result the plugin engine hands back for
    one plugin.  The executer only stores and forwards it. *)
Record PluginResult := {
  ResultStatusOf : ResultStatus;
  ResultCode : Z;
  ResultOutput : string
}.

(** Modelled from the spec: statuses and error codes exchanged with the
    status reporter (section 6).  The executer passes them as opaque
    constants, so they are kept symbolic. *)
Inductive AssociationStatus :=
| AssociationStatusPending
| AssociationStatusInProgress
| AssociationStatusSuccess
| AssociationStatusNameFailed.

Inductive AssociationErrorCode :=
| AssociationErrorCodeNoError
| AssociationErrorCodeExecutionError.

Record AgentInfo := { AgentName : string; AgentVersion : string }.

Record AdditionalInfo := { Agent : AgentInfo; DateTime : string }.

End contracts.
Import contracts.

(** ** fmt.Sprintf, restricted to the [%v] verb *)

Module fmt.

(** Operands of the [%v] verb that [buildOutput] passes. *)
Inductive operand :=
| OInt (n : Z)
| OString (s : string).

(** [%v] prints an [int] in decimal and a [string] as it is. *)
Definition format_v (o : operand) : string :=
  match o with
  | OInt n => pretty n
  | OString s => s
  end.

(** The format is scanned left to right; each [%v] consumes the next
    operand, and a verb without operand prints Go's missing marker.
    Every other character is copied.  (Surplus operands, which Go
    reports at the end, do not occur: the template has six verbs and
    [buildOutput] passes six operands.) *)
Fixpoint Sprintf (format : string) (a : list operand) : string :=
  match format with
  | EmptyString => EmptyString
  | String c rest =>
      match c, rest with
      | "%"%char, String "v"%char rest' =>
          match a with
          | o :: a' => format_v o +:+ Sprintf rest' a'
          | [] => "%!v(MISSING)" +:+ Sprintf rest' []
          end
      | _, _ => String c (Sprintf rest a)
      end
  end.

End fmt.

(** ** The status aggregator *)

Definition outputMessageTemplate : string :=
  "%v out of %v plugin%v processed, %v success, %v failed, %v timedout".
Definition documentPendingMessage : string := "Association is pending".

(** The map handed to the aggregator.  Its values are pointers in Go; the
    producers ([reply.PrepareRuntimeStatuses]) allocate every entry, so an
    entry is modelled by the record it points to. *)
Abbreviation RuntimeStatuses := (gmap string PluginRuntimeStatus).

(** Body of [filterByStatus] for one enumeration [order] of the entries:
    Go's [range] over a map yields the entries in an unspecified order. *)
Definition filterByStatus_range (order : list (string * PluginRuntimeStatus))
    (predicate : ResultStatus -> bool) : RuntimeStatuses :=
  foldl (fun result '(name, value) =>
           if predicate (Status value) then <[name := value]> result else result)
        ∅ order.

Definition filterByStatus (runtimeStatuses : RuntimeStatuses)
    (predicate : ResultStatus -> bool) : RuntimeStatuses :=
  filterByStatus_range (map_to_list runtimeStatuses) predicate.

(** [len] of a Go map. *)
Definition len (m : RuntimeStatuses) : Z := Z.of_nat (size m).

(** The four predicates [buildOutput] passes to [filterByStatus]. *)
Definition is_set (status : ResultStatus) : bool :=
  bool_decide (status <> "").
Definition is_success (status : ResultStatus) : bool :=
  bool_decide (status = ResultStatusPassedAndReboot) ||
  bool_decide (status = ResultStatusSuccessAndReboot) ||
  bool_decide (status = ResultStatusSuccess).
Definition is_failed (status : ResultStatus) : bool :=
  bool_decide (status = ResultStatusFailed).
Definition is_timedOut (status : ResultStatus) : bool :=
  bool_decide (status = ResultStatusTimedOut).

(** [buildOutput]. *)
Definition buildOutput (runtimeStatuses : RuntimeStatuses)
    (totalNumberOfPlugins : Z) : string :=
  let plural := if bool_decide (totalNumberOfPlugins > 1) then "s" else "" in
  let completed := len (filterByStatus runtimeStatuses is_set) in
  let success := len (filterByStatus runtimeStatuses is_success) in
  let failed := len (filterByStatus runtimeStatuses is_failed) in
  let timedOut := len (filterByStatus runtimeStatuses is_timedOut) in
  fmt.Sprintf outputMessageTemplate
    [fmt.OInt completed; fmt.OInt totalNumberOfPlugins; fmt.OString plural;
     fmt.OInt success; fmt.OInt failed; fmt.OInt timedOut].

(** [buildOutput] with the enumeration orders of its four [filterByStatus]
    loops made explicit. *)
Definition buildOutput_range
    (o1 o2 o3 o4 : list (string * PluginRuntimeStatus))
    (totalNumberOfPlugins : Z) : string :=
  let plural := if bool_decide (totalNumberOfPlugins > 1) then "s" else "" in
  let completed := len (filterByStatus_range o1 is_set) in
  let success := len (filterByStatus_range o2 is_success) in
  let failed := len (filterByStatus_range o3 is_failed) in
  let timedOut := len (filterByStatus_range o4 is_timedOut) in
  fmt.Sprintf outputMessageTemplate
    [fmt.OInt completed; fmt.OInt totalNumberOfPlugins; fmt.OString plural;
     fmt.OInt success; fmt.OInt failed; fmt.OInt timedOut].

(** *** The summary in the words of the specification *)

(** Number of plugins of the mapping whose status satisfies [P]. *)
Definition count_status (P : ResultStatus -> bool)
    (runtimeStatuses : RuntimeStatuses) : Z :=
  Z.of_nat (length (filter (fun kv => P (Status kv.2) = true)
                           (map_to_list runtimeStatuses))).

(** Processed as the code counts it: the status is not the empty string. *)
Definition processed_spec := count_status (fun s => bool_decide (s <> "")).

(** Processed as section 4.4 words it: the status is set, that is, neither
    empty nor not-started. *)
Definition processed_stated :=
  count_status (fun s => bool_decide (s <> "" /\ s <> ResultStatusNotStarted)).
Definition succeeded_spec :=
  count_status (fun s => bool_decide
    (s ∈ [ResultStatusSuccess; ResultStatusSuccessAndReboot;
          ResultStatusPassedAndReboot])).
Definition failed_spec := count_status (fun s => bool_decide (s = ResultStatusFailed)).
Definition timedOut_spec := count_status (fun s => bool_decide (s = ResultStatusTimedOut)).

(** The sentence, given the five numbers and the plural suffix. *)
Definition sentence (processed total : Z) (suffix : string)
    (succeeded failed timedOut : Z) : string :=
  pretty processed +:+ " out of " +:+ pretty total +:+ " plugin" +:+ suffix
  +:+ " processed, " +:+ pretty succeeded +:+ " success, "
  +:+ pretty failed +:+ " failed, " +:+ pretty timedOut +:+ " timedout".

(** Suffix rule of the testable properties: none for a total of one, an
    "s" for a total of zero or of more than one. *)
Definition plural_spec (total : Z) : string :=
  if bool_decide (total = 1) then "" else "s".

(** Suffix rule of the code: an "s" exactly above one. *)
Definition plural_code (total : Z) : string :=
  if bool_decide (1 < total) then "s" else "".

(** ** Documents *)

Module stateModel.

(** Modelled from the spec: the persisted projection of a document
    (section 3), with the fields the executer reads or writes. *)
Record DocumentInfo := {
  AssociationID : string;
  DocumentID : string;
  DocumentName : string;
  InstanceID : string;
  CreatedDate : string;
  DocumentStatus : ResultStatus;
  RuntimeStatus : RuntimeStatuses;
  AdditionalInfo : contracts.AdditionalInfo;
  DocumentTraceOutput : string
}.

(** One plugin configuration of the ordered plugin list. *)
Record PluginState := { Name : string; Configuration : string }.

Record DocumentState := {
  DocumentInformation : DocumentInfo;
  InstancePluginsInformation : list PluginState
}.

(** The Go zero value of [DocumentInfo]. *)
Definition zeroDocumentInfo : DocumentInfo :=
  {| AssociationID := ""; DocumentID := ""; DocumentName := "";
     InstanceID := ""; CreatedDate := ""; DocumentStatus := "";
     RuntimeStatus := ∅;
     AdditionalInfo := {| Agent := {| AgentName := ""; AgentVersion := "" |};
                          DateTime := "" |};
     DocumentTraceOutput := "" |}.

End stateModel.

Module reply.

(** The four fields of the reply payload that the executer copies. *)
Record SendReplyPayload := {
  AdditionalInfo : contracts.AdditionalInfo;
  DocumentStatus : ResultStatus;
  DocumentTraceOutput : string;
  RuntimeStatus : RuntimeStatuses
}.

End reply.

Module appconfig.
(** Modelled from the spec: the three lifecycle locations of the store. *)
Definition DefaultLocationOfPending : string := "pending".
Definition DefaultLocationOfCurrent : string := "current".
Definition DefaultLocationOfCompleted : string := "completed".
End appconfig.

Module task.
(** The cancellation token a pool hands to a job; opaque to the executer. *)
Inductive CancelFlag := Token (id : nat).
End task.

(** The result map of the plugin engine. *)
Abbreviation PluginOutputs := (gmap string PluginResult).

(** ** The world outside the executer *)

(** The closure [func(cancelFlag) { r.ExecuteInProgressDocument(context,
    docState, cancelFlag) }] that is handed to the pool, by what it
    captures. *)
Inductive Job :=
| ExecuteInProgressDocumentJob (docState : stateModel.DocumentState).

(** Calls that leave the executer, in the order they are made. *)
Inductive Event :=
| EvUpdateInstanceAssociationStatus
    (associationID documentName instanceID : string)
    (status : AssociationStatus) (errorCode : AssociationErrorCode)
    (executionDate executionSummary : string)
| EvMoveDocumentState (documentID instanceID srcLocation dstLocation : string)
| EvGetDocumentInfo (documentID instanceID location : string)
| EvPersistDocumentInfo (docInfo : stateModel.DocumentInfo)
    (documentID instanceID location : string)
| EvSubmit (jobID : string) (job : Job)
| EvExecutePlugin (pluginName : string)
| EvUpdateNextScheduledDate (associationID : string)
| EvExecuteAssociation
| EvLogError (message : string).

(** Document store, keyed by document id, instance id and location. *)
Abbreviation Store := (gmap (string * string * string) stateModel.DocumentInfo).

Record World := { store : Store; trace : list Event }.

(** What the collaborators answer.  An answer may depend on everything
    that happened before the call, so two calls at different points of a
    run are independent of each other. *)
Record Env := {
  (** [r.agentInfo] *)
  agentInfo : AgentInfo;
  (** [r.assocSvc.IsInstanceAssociationApiMode()] *)
  IsInstanceAssociationApiMode : list Event -> bool;
  (** error returned by [r.assocSvc.UpdateInstanceAssociationStatus] *)
  UpdateStatus_error : list Event -> option string;
  (** [jsonutil.Marshal] on plugin outputs: content, or the error *)
  Marshal_outputs : list Event -> PluginOutputs -> string + string;
  (** [jsonutil.Marshal] on runtime statuses: content, or the error *)
  Marshal_statuses : list Event -> RuntimeStatuses -> string + string;
  (** [platform.InstanceID()]: the id, or the error *)
  platform_InstanceID : list Event -> string + string;
  (** [times.ToIso8601UTC(time.Now())] *)
  Now : list Event -> string;
  (** error returned by [pool.Submit] for a job id *)
  Submit_error : list Event -> string -> option string;
  (** result of running one plugin under a cancellation token *)
  plugin_result :
    list Event -> stateModel.PluginState -> task.CancelFlag -> PluginResult;
  (** [reply.PrepareRuntimeStatuses] *)
  PrepareRuntimeStatuses : PluginOutputs -> RuntimeStatuses;
  (** [reply.PrepareReplyPayload] *)
  PrepareReplyPayload :
    string -> RuntimeStatuses -> string -> AgentInfo -> bool ->
    reply.SendReplyPayload;
  (** [docState.IsRebootRequired()] *)
  IsRebootRequired : stateModel.DocumentState -> bool
}.

(** ** Computations over the world *)

Definition M (A : Type) : Type := World -> A * World.

Definition ret {A} (x : A) : M A := fun w => (x, w).
Definition bind {A B} (m : M A) (k : A -> M B) : M B :=
  fun w => let '(x, w') := m w in k x w'.

Declare Scope exec_scope.
Delimit Scope exec_scope with exec.
Notation "x <- m ;; k" := (bind m (fun x => k))
  (at level 100, m at next level, right associativity) : exec_scope.
Notation "m ;;; k" := (bind m (fun _ => k))
  (at level 100, right associativity) : exec_scope.
Open Scope exec_scope.

(** Record a call. *)
Definition emit (e : Event) : M unit :=
  fun w => (tt, {| store := store w; trace := trace w ++ [e] |}).

(** Ask an oracle about the history so far. *)
Definition ask {A} (f : list Event -> A) : M A :=
  fun w => (f (trace w), w).

(** [defer]: [deferred] runs when [body] returns, whatever path it took,
    and sees the state [body] left behind. *)
Definition defer {A} (deferred : A -> M unit) (body : M A) : M A :=
  x <- body ;; deferred x ;;; ret x.

(** ** Collaborators *)

Section Collaborators.

Variable env : Env.

(** [r.assocSvc.UpdateInstanceAssociationStatus]: the call is recorded
    and the service's error, if any, is returned. *)
Definition UpdateInstanceAssociationStatus
    (associationID documentName instanceID : string)
    (status : AssociationStatus) (errorCode : AssociationErrorCode)
    (executionDate executionSummary : string) : M (option string) :=
  err <- ask (UpdateStatus_error env) ;;
  emit (EvUpdateInstanceAssociationStatus associationID documentName
          instanceID status errorCode executionDate executionSummary) ;;;
  ret err.

(** Modelled from the spec: [bookkeepingSvc.MoveDocumentState], the atomic
    move of a record between two locations of the store.  A record that
    is not at the source location cannot be moved: the store is left as
    it is and an error comes back. *)
Definition MoveDocumentState
    (documentID instanceID srcLocation dstLocation : string)
    : M (option string) :=
  emit (EvMoveDocumentState documentID instanceID srcLocation dstLocation) ;;;
  fun w =>
    match store w !! (documentID, instanceID, srcLocation) with
    | Some info =>
        (None,
         {| store := <[(documentID, instanceID, dstLocation) := info]>
                       (delete (documentID, instanceID, srcLocation) (store w));
            trace := trace w |})
    | None => (Some "document state not found", w)
    end.

(** Modelled from the spec: [bookkeepingSvc.GetDocumentInfo], the read of
    a record.  There is no error result; a location that holds nothing
    yields the zero value. *)
Definition GetDocumentInfo (documentID instanceID location : string)
    : M stateModel.DocumentInfo :=
  emit (EvGetDocumentInfo documentID instanceID location) ;;;
  fun w =>
    (default stateModel.zeroDocumentInfo
       (store w !! (documentID, instanceID, location)), w).

(** Modelled from the spec: [bookkeepingSvc.PersistDocumentInfo], the
    write of a record. *)
Definition PersistDocumentInfo (docInfo : stateModel.DocumentInfo)
    (documentID instanceID location : string) : M unit :=
  emit (EvPersistDocumentInfo docInfo documentID instanceID location) ;;;
  fun w =>
    (tt, {| store := <[(documentID, instanceID, location) := docInfo]> (store w);
            trace := trace w |}).

(** Modelled from the spec: [pool.Submit], which takes the job and runs
    it later on a worker of its own; inside the submitting call only the
    hand-over and its error are visible. *)
Definition Submit (jobID : string) (job : Job) : M (option string) :=
  err <- ask (fun h => Submit_error env h jobID) ;;
  emit (EvSubmit jobID job) ;;;
  ret err.

(** [schedulemanager.UpdateNextScheduledDate] and
    [signal.ExecuteAssociation]: fire-and-forget. *)
Definition UpdateNextScheduledDate (associationID : string) : M unit :=
  emit (EvUpdateNextScheduledDate associationID).
Definition ExecuteAssociation : M unit := emit EvExecuteAssociation.

(** [log.Error(prefix, err)]. *)
Definition log_Error (prefix err : string) : M unit :=
  emit (EvLogError (prefix +:+ err)).

(** Modelled from the spec: [pluginExecution.RunPlugins].  The engine
    runs the plugins one at a time in the declared order and, after each
    plugin, calls the progress callback with the cumulative result map
    and the number of declared plugins; it returns the final map. *)
Fixpoint RunPlugins_from
    (associationID createdDate : string)
    (plugins : list stateModel.PluginState)
    (totalNumberOfActions : Z)
    (sendResponse : string -> string -> PluginOutputs -> Z -> M unit)
    (cancelFlag : task.CancelFlag)
    (pluginOutputs : PluginOutputs) : M PluginOutputs :=
  match plugins with
  | [] => ret pluginOutputs
  | p :: rest =>
      r <- ask (fun h => plugin_result env h p cancelFlag) ;;
      emit (EvExecutePlugin (stateModel.Name p)) ;;;
      let pluginOutputs := <[stateModel.Name p := r]> pluginOutputs in
      sendResponse associationID createdDate pluginOutputs
        totalNumberOfActions ;;;
      RunPlugins_from associationID createdDate rest totalNumberOfActions
        sendResponse cancelFlag pluginOutputs
  end.

Definition RunPlugins
    (associationID createdDate : string)
    (plugins : list stateModel.PluginState)
    (sendResponse : string -> string -> PluginOutputs -> Z -> M unit)
    (cancelFlag : task.CancelFlag) : M PluginOutputs :=
  RunPlugins_from associationID createdDate plugins
    (Z.of_nat (length plugins)) sendResponse cancelFlag ∅.

End Collaborators.

(** ** The executer *)

Section AssociationExecuter.

Variable env : Env.

Import stateModel.

(** [pluginExecutionReport]: the progress callback of the engine. *)
Definition pluginExecutionReport
    (associationID documentCreatedDate : string)
    (pluginOutputs : PluginOutputs) (totalNumberOfPlugins : Z) : M unit :=
  outputContent <- ask (fun h => Marshal_outputs env h pluginOutputs) ;;
  match outputContent with
  | inr err => log_Error "could not marshal plugin outputs! " err
  | inl _ =>
      apiMode <- ask (IsInstanceAssociationApiMode env) ;;
      if negb apiMode then ret tt
      else
        instanceID <- ask (platform_InstanceID env) ;;
        match instanceID with
        | inr err => log_Error "failed to load instance id " err
        | inl instanceID =>
            let runtimeStatuses := PrepareRuntimeStatuses env pluginOutputs in
            let executionSummary :=
              buildOutput runtimeStatuses totalNumberOfPlugins in
            now <- ask (Now env) ;;
            UpdateInstanceAssociationStatus env
              associationID "" instanceID
              AssociationStatusInProgress AssociationErrorCodeNoError
              now executionSummary ;;;
            ret tt
        end
  end.

(** [associationExecutionReport]: the terminal status update. *)
Definition associationExecutionReport
    (docInfo : DocumentInfo) (runtimeStatuses : RuntimeStatuses)
    (totalNumberOfPlugins : Z)
    (errorCode : AssociationErrorCode)
    (associationStatus : AssociationStatus) : M unit :=
  runtimeStatusesContent <-
    ask (fun h => Marshal_statuses env h runtimeStatuses) ;;
  match runtimeStatusesContent with
  | inr err => log_Error "could not marshal plugin outputs " err
  | inl _ =>
      let executionSummary :=
        buildOutput runtimeStatuses totalNumberOfPlugins in
      now <- ask (Now env) ;;
      UpdateInstanceAssociationStatus env
        (AssociationID docInfo) (DocumentName docInfo) (InstanceID docInfo)
        associationStatus errorCode now executionSummary ;;;
      ret tt
  end.

(** The four assignments of [parseAndPersistReplyContents]. *)
Definition overlay (info : DocumentInfo)
    (replyPayload : reply.SendReplyPayload) : DocumentInfo :=
  {| AssociationID := AssociationID info;
     DocumentID := DocumentID info;
     DocumentName := DocumentName info;
     InstanceID := InstanceID info;
     CreatedDate := CreatedDate info;
     DocumentStatus := reply.DocumentStatus replyPayload;
     RuntimeStatus := reply.RuntimeStatus replyPayload;
     AdditionalInfo := reply.AdditionalInfo replyPayload;
     DocumentTraceOutput := reply.DocumentTraceOutput replyPayload |}.

(** [parseAndPersistReplyContents]: [docState] is a pointer in Go, so the
    updated document state is handed back. *)
Definition parseAndPersistReplyContents
    (docState : DocumentState) (pluginOutputs : PluginOutputs)
    : M DocumentState :=
  reloaded <- GetDocumentInfo
                (DocumentID (DocumentInformation docState))
                (InstanceID (DocumentInformation docState))
                appconfig.DefaultLocationOfCurrent ;;
  let runtimeStatuses := PrepareRuntimeStatuses env pluginOutputs in
  now <- ask (Now env) ;;
  let replyPayload :=
    PrepareReplyPayload env "" runtimeStatuses now (agentInfo env) false in
  let docInfo := overlay reloaded replyPayload in
  PersistDocumentInfo docInfo (DocumentID docInfo) (InstanceID docInfo)
    appconfig.DefaultLocationOfCurrent ;;;
  ret {| DocumentInformation := docInfo;
         InstancePluginsInformation := InstancePluginsInformation docState |}.

(** The body of [ExecuteInProgressDocument], without its [defer]. *)
Definition ExecuteInProgressDocument_body
    (docState : DocumentState) (cancelFlag : task.CancelFlag)
    : M DocumentState :=
  let totalNumberOfActions :=
    Z.of_nat (length (InstancePluginsInformation docState)) in
  outputs <- RunPlugins env
               (AssociationID (DocumentInformation docState))
               (CreatedDate (DocumentInformation docState))
               (InstancePluginsInformation docState)
               pluginExecutionReport cancelFlag ;;
  pluginOutputContent <- ask (fun h => Marshal_outputs env h outputs) ;;
  match pluginOutputContent with
  | inr err =>
      log_Error "failed to parse to json string " err ;;; ret docState
  | inl _ =>
      docState <- parseAndPersistReplyContents docState outputs ;;
      if IsRebootRequired env docState then ret docState
      else
        pluginOutputContent <- ask (fun h => Marshal_outputs env h outputs) ;;
        match pluginOutputContent with
        | inr err =>
            log_Error "failed to parse to json string " err ;;; ret docState
        | inl _ =>
            let docInfo := DocumentInformation docState in
            (if bool_decide (DocumentStatus docInfo = ResultStatusFailed) then
               associationExecutionReport docInfo (RuntimeStatus docInfo)
                 totalNumberOfActions
                 AssociationErrorCodeExecutionError
                 AssociationStatusNameFailed
             else if bool_decide (DocumentStatus docInfo = ResultStatusSuccess) then
               associationExecutionReport docInfo (RuntimeStatus docInfo)
                 totalNumberOfActions
                 AssociationErrorCodeNoError
                 AssociationStatusSuccess
             else ret tt) ;;;
            MoveDocumentState (DocumentID docInfo) (InstanceID docInfo)
              appconfig.DefaultLocationOfCurrent
              appconfig.DefaultLocationOfCompleted ;;;
            ret docState
        end
  end.

(** [ExecuteInProgressDocument]: the deferred function reads the
    association id from the document state as it is on exit. *)
Definition ExecuteInProgressDocument
    (docState : DocumentState) (cancelFlag : task.CancelFlag)
    : M DocumentState :=
  defer (fun docState =>
           UpdateNextScheduledDate
             (AssociationID (DocumentInformation docState)) ;;;
           ExecuteAssociation)
        (ExecuteInProgressDocument_body docState cancelFlag).

(** What a submitted job does once the pool runs it with a token. *)
Definition runJob (job : Job) (cancelFlag : task.CancelFlag)
    : M DocumentState :=
  match job with
  | ExecuteInProgressDocumentJob docState =>
      ExecuteInProgressDocument docState cancelFlag
  end.

(** [ExecutePendingDocument]: [None] is Go's [nil] error. *)
Definition ExecutePendingDocument (docState : DocumentState)
    : M (option string) :=
  let docInfo := DocumentInformation docState in
  now <- ask (Now env) ;;
  UpdateInstanceAssociationStatus env
    (AssociationID docInfo) (DocumentName docInfo) (InstanceID docInfo)
    AssociationStatusPending AssociationErrorCodeNoError
    now documentPendingMessage ;;;
  MoveDocumentState (DocumentID docInfo) (InstanceID docInfo)
    appconfig.DefaultLocationOfPending
    appconfig.DefaultLocationOfCurrent ;;;
  err <- Submit env (AssociationID docInfo)
           (ExecuteInProgressDocumentJob docState) ;;
  match err with
  | Some err =>
      ret (Some (fmt.Sprintf "failed to process association, %v"
                   [fmt.OString err]))
  | None => ret None
  end.

End AssociationExecuter.

(** ** Observations on traces *)

(** A fallible call went well. *)
Definition is_ok {A E} (r : A + E) : bool :=
  match r with inl _ => true | inr _ => false end.

(** The two calls of the deferred function. *)
Definition is_cleanup (e : Event) : bool :=
  match e with
  | EvUpdateNextScheduledDate _ | EvExecuteAssociation => true
  | _ => false
  end.

(** A status update that reports a terminal status. *)
Definition is_terminal_report (e : Event) : bool :=
  match e with
  | EvUpdateInstanceAssociationStatus _ _ _ AssociationStatusSuccess _ _ _
  | EvUpdateInstanceAssociationStatus _ _ _ AssociationStatusNameFailed _ _ _ =>
      true
  | _ => false
  end.

(** Any status update. *)
Definition is_status_update (e : Event) : bool :=
  match e with
  | EvUpdateInstanceAssociationStatus _ _ _ _ _ _ _ => true
  | _ => false
  end.

(** A move of a record between two locations. *)
Definition is_move (e : Event) : bool :=
  match e with
  | EvMoveDocumentState _ _ _ _ => true
  | _ => false
  end.

(** Names of the plugins the engine ran, in order. *)
Definition executed_plugins (h : list Event) : list string :=
  omap (fun e => match e with EvExecutePlugin n => Some n | _ => None end) h.

(** What the engine and its progress callback may emit: plugin runs,
    error log lines and in-progress updates. *)
Definition is_progress (e : Event) : bool :=
  match e with
  | EvExecutePlugin _ | EvLogError _
  | EvUpdateInstanceAssociationStatus _ _ _ AssociationStatusInProgress _ _ _ =>
      true
  | _ => false
  end.

(** What reloading and persisting the reply may emit. *)
Definition is_store_access (e : Event) : bool :=
  match e with
  | EvGetDocumentInfo _ _ _ | EvPersistDocumentInfo _ _ _ _ => true
  | _ => false
  end.

(** [w'] is [w] after some more calls, all of them satisfying [P]. *)
Definition extends_with (P : Event -> bool) (w w' : World) : Prop :=
  exists evs, trace w' = trace w ++ evs /\ forallb P evs = true.

(** A computation that only makes calls satisfying [P]. *)
Definition emits (P : Event -> bool) {A} (m : M A) : Prop :=
  forall w, extends_with P w (m w).2.

(** The world after some more calls. *)
Definition after (w : World) (evs : list Event) : World :=
  {| store := store w; trace := trace w ++ evs |}.

(** ** The calls a run is expected to make *)

Section Calls.

Variable env : Env.
Import stateModel.

(** The three calls of [ExecutePendingDocument] on document [docState],
    when the first of them is made after history [h]. *)
Definition pending_update (docState : DocumentState) (h : list Event) : Event :=
  let docInfo := DocumentInformation docState in
  EvUpdateInstanceAssociationStatus
    (AssociationID docInfo) (DocumentName docInfo) (InstanceID docInfo)
    AssociationStatusPending AssociationErrorCodeNoError
    (Now env h) documentPendingMessage.

Definition pending_move (docState : DocumentState) : Event :=
  let docInfo := DocumentInformation docState in
  EvMoveDocumentState (DocumentID docInfo) (InstanceID docInfo)
    appconfig.DefaultLocationOfPending appconfig.DefaultLocationOfCurrent.

Definition pending_submit (docState : DocumentState) : Event :=
  EvSubmit (AssociationID (DocumentInformation docState))
    (ExecuteInProgressDocumentJob docState).

(** The error of [fmt.Errorf("failed to process association, %v", err)]. *)
Definition wrapped (err : string) : string :=
  "failed to process association, " +:+ err.

(** The record [parseAndPersistReplyContents] reloads. *)
Definition reloaded_info (docState : DocumentState) (w : World) : DocumentInfo :=
  default zeroDocumentInfo
    (store w !! (DocumentID (DocumentInformation docState),
                 InstanceID (DocumentInformation docState),
                 appconfig.DefaultLocationOfCurrent)).

Definition reload_event (docState : DocumentState) : Event :=
  EvGetDocumentInfo (DocumentID (DocumentInformation docState))
    (InstanceID (DocumentInformation docState))
    appconfig.DefaultLocationOfCurrent.

(** The payload it builds from the plugin outputs. *)
Definition reply_payload (docState : DocumentState)
    (pluginOutputs : PluginOutputs) (w : World) : reply.SendReplyPayload :=
  PrepareReplyPayload env "" (PrepareRuntimeStatuses env pluginOutputs)
    (Now env (trace w ++ [reload_event docState])) (agentInfo env) false.

(** The calls of one invocation of [pluginExecutionReport] made after
    history [h]. *)
Definition progress_events (associationID : string)
    (pluginOutputs : PluginOutputs) (totalNumberOfPlugins : Z)
    (h : list Event) : list Event :=
  match Marshal_outputs env h pluginOutputs with
  | inr err => [EvLogError ("could not marshal plugin outputs! " +:+ err)]
  | inl _ =>
      if IsInstanceAssociationApiMode env h then
        match platform_InstanceID env h with
        | inr err => [EvLogError ("failed to load instance id " +:+ err)]
        | inl instanceID =>
            [EvUpdateInstanceAssociationStatus associationID "" instanceID
               AssociationStatusInProgress AssociationErrorCodeNoError
               (Now env h)
               (buildOutput (PrepareRuntimeStatuses env pluginOutputs)
                  totalNumberOfPlugins)]
        end
      else []
  end.

(** The calls of [associationExecutionReport] made after history [h]. *)
Definition report_events (docInfo : DocumentInfo)
    (runtimeStatuses : RuntimeStatuses) (totalNumberOfPlugins : Z)
    (errorCode : AssociationErrorCode) (associationStatus : AssociationStatus)
    (h : list Event) : list Event :=
  match Marshal_statuses env h runtimeStatuses with
  | inr err => [EvLogError ("could not marshal plugin outputs " +:+ err)]
  | inl _ =>
      [EvUpdateInstanceAssociationStatus
         (AssociationID docInfo) (DocumentName docInfo) (InstanceID docInfo)
         associationStatus errorCode (Now env h)
         (buildOutput runtimeStatuses totalNumberOfPlugins)]
  end.

(** The calls of the terminal-status decision of
    [ExecuteInProgressDocument] for a document with [total] declared
    plugins, made after history [h]. *)
Definition terminal_events (docInfo : DocumentInfo) (total : Z)
    (h : list Event) : list Event :=
  if bool_decide (DocumentStatus docInfo = ResultStatusFailed) then
    report_events docInfo (RuntimeStatus docInfo) total
      AssociationErrorCodeExecutionError AssociationStatusNameFailed h
  else if bool_decide (DocumentStatus docInfo = ResultStatusSuccess) then
    report_events docInfo (RuntimeStatus docInfo) total
      AssociationErrorCodeNoError AssociationStatusSuccess h
  else [].

Definition completed_move (docInfo : DocumentInfo) : Event :=
  EvMoveDocumentState (DocumentID docInfo) (InstanceID docInfo)
    appconfig.DefaultLocationOfCurrent appconfig.DefaultLocationOfCompleted.

(** The two calls of the deferred function. *)
Definition cleanup_events (docState : DocumentState) : list Event :=
  [EvUpdateNextScheduledDate (AssociationID (DocumentInformation docState));
   EvExecuteAssociation].

(** The store after the record of [docInfo] left "current" for
    "completed". *)
Definition completed_store (docInfo : DocumentInfo) (st : Store) : Store :=
  <[(DocumentID docInfo, InstanceID docInfo,
     appconfig.DefaultLocationOfCompleted) := docInfo]>
    (delete (DocumentID docInfo, InstanceID docInfo,
             appconfig.DefaultLocationOfCurrent) st).

(** The engine run that [ExecuteInProgressDocument] starts. *)
Definition engine_run (docState : DocumentState)
    (cancelFlag : task.CancelFlag) : M PluginOutputs :=
  RunPlugins env
    (AssociationID (DocumentInformation docState))
    (CreatedDate (DocumentInformation docState))
    (InstancePluginsInformation docState)
    (pluginExecutionReport env) cancelFlag.

Definition not_cleanup (e : Event) : bool := negb (is_cleanup e).

End Calls.

(** ** Sample runs *)

Definition status_of (s : ResultStatus) : PluginRuntimeStatus :=
  {| Status := s; Code := 0; Output := ""; StartDateTime := "";
     EndDateTime := "" |}.

(** One plugin that has not started. *)
Definition waiting_plugin : RuntimeStatuses :=
  {[ "aws:runShellScript" := status_of ResultStatusNotStarted ]}.

Definition two_plugins : RuntimeStatuses :=
  <["aws:runShellScript" := status_of ResultStatusSuccess]>
    (<["aws:applications" := status_of ResultStatusFailed]> ∅).

(** An environment in API mode whose plugins all end with [status], whose
    reply builder reports [status] for the document, and whose document
    requires a reboot when [reboot] says so; marshalling of outputs and of
    runtime statuses and the submission behave as given. *)
Definition sample_env (status : ResultStatus) (reboot : bool)
    (marshalOutputs : list Event -> string + string)
    (marshalStatuses : string + string) (submit : option string) : Env :=
  {| agentInfo := {| AgentName := "amazon-ssm-agent"; AgentVersion := "2.0" |};
     IsInstanceAssociationApiMode := fun _ => true;
     UpdateStatus_error := fun _ => None;
     Marshal_outputs := fun h _ => marshalOutputs h;
     Marshal_statuses := fun _ _ => marshalStatuses;
     platform_InstanceID := fun _ => inl "i-0123";
     Now := fun _ => "2016-11-01T00:00:00Z";
     Submit_error := fun _ _ => submit;
     plugin_result := fun _ _ _ =>
       {| ResultStatusOf := status; ResultCode := 0; ResultOutput := "" |};
     PrepareRuntimeStatuses := fmap (fun r => status_of (ResultStatusOf r));
     PrepareReplyPayload := fun _ runtimeStatuses now agent _ =>
       {| reply.AdditionalInfo := {| Agent := agent; DateTime := now |};
          reply.DocumentStatus := status;
          reply.DocumentTraceOutput := "";
          reply.RuntimeStatus := runtimeStatuses |};
     IsRebootRequired := fun _ => reboot |}.

Definition marshal_ok : list Event -> string + string := fun _ => inl "{}".
(** Marshalling that starts to fail once the reply has been persisted. *)
Definition marshal_fails_late : list Event -> string + string :=
  fun h => if existsb is_store_access h then inr "json: unsupported type"
           else inl "{}".

Definition sample_info : stateModel.DocumentInfo :=
  {| stateModel.AssociationID := "assoc-1";
     stateModel.DocumentID := "doc-1";
     stateModel.DocumentName := "AWS-RunShellScript";
     stateModel.InstanceID := "i-0123";
     stateModel.CreatedDate := "2016-10-31T00:00:00Z";
     stateModel.DocumentStatus := "";
     stateModel.RuntimeStatus := ∅;
     stateModel.AdditionalInfo :=
       {| Agent := {| AgentName := ""; AgentVersion := "" |}; DateTime := "" |};
     stateModel.DocumentTraceOutput := "" |}.

Definition sample_doc : stateModel.DocumentState :=
  {| stateModel.DocumentInformation := sample_info;
     stateModel.InstancePluginsInformation :=
       [{| stateModel.Name := "aws:runShellScript";
           stateModel.Configuration := "{}" |}] |}.

(** The sample document waiting in "pending", and being run in "current". *)
Definition pending_world : World :=
  {| store := {[ ("doc-1", "i-0123", appconfig.DefaultLocationOfPending)
                 := sample_info ]};
     trace := [] |}.
Definition current_world : World :=
  {| store := {[ ("doc-1", "i-0123", appconfig.DefaultLocationOfCurrent)
                 := sample_info ]};
     trace := [] |}.

Definition full_pool_env : Env :=
  sample_env ResultStatusSuccess false marshal_ok (inl "{}") (Some "pool is full").
Definition reboot_env : Env :=
  sample_env ResultStatusSuccessAndReboot true marshal_ok (inl "{}") None.
Definition failed_env : Env :=
  sample_env ResultStatusFailed false marshal_ok (inl "{}") None.
Definition late_failure_env : Env :=
  sample_env ResultStatusSuccess false marshal_fails_late (inl "{}") None.

(** A run in which everything goes well. *)
Definition success_env : Env :=
  sample_env ResultStatusSuccess false marshal_ok (inl "{}") None.

(** The record that "current" holds for the sample document carries
    another association id than the document handed to the executer. *)
Definition stale_world : World :=
  {| store := {[ ("doc-1", "i-0123", appconfig.DefaultLocationOfCurrent)
                 := {| stateModel.AssociationID := "assoc-2";
                       stateModel.DocumentID := "doc-1";
                       stateModel.DocumentName := "AWS-RunShellScript";
                       stateModel.InstanceID := "i-0123";
                       stateModel.CreatedDate := "2016-10-31T00:00:00Z";
                       stateModel.DocumentStatus := "";
                       stateModel.RuntimeStatus := ∅;
                       stateModel.AdditionalInfo :=
                         {| Agent := {| AgentName := ""; AgentVersion := "" |};
                            DateTime := "" |};
                       stateModel.DocumentTraceOutput := "" |} ]};
     trace := [] |}.

(** Replace the output text of a runtime status. *)
Definition with_output (text : string) (v : PluginRuntimeStatus)
    : PluginRuntimeStatus :=
  {| Status := Status v; Code := Code v; Output := text;
     StartDateTime := StartDateTime v; EndDateTime := EndDateTime v |}.

(** Marshalling fails from the start. *)
Definition early_failure_env : Env :=
  sample_env ResultStatusSuccess false
    (fun _ => inr "json: unsupported type") (inl "{}") None.

(** Two documents wait in "pending". *)
Definition two_docs_world : World :=
  {| store :=
       <[("doc-2", "i-0123", appconfig.DefaultLocationOfPending)
         := sample_info]>
         {[ ("doc-1", "i-0123", appconfig.DefaultLocationOfPending)
            := sample_info ]};
     trace := [] |}.

(** * Properties *)

(** ** The status aggregator *)

Section Aggregator.

Implicit Types (order : list (string * PluginRuntimeStatus)).
Implicit Types (predicate : ResultStatus -> bool).
Implicit Types (m : RuntimeStatuses).

(** The loop of [filterByStatus], started from any map that knows none
    of the names still to come, adds exactly the selected entries. *)
Lemma filterByStatus_loop order predicate m :
  NoDup order.*1 ->
  (forall name, name ∈ order.*1 -> m !! name = None) ->
  foldl (fun result '(name, value) =>
           if predicate (Status value) then <[name := value]> result
           else result) m order
  = list_to_map (filter (fun kv => predicate (Status kv.2) = true) order) ∪ m.
Proof.
  revert m. induction order as [|[name value] order IH]; intros m Hnd Hfresh.
  - cbn. by rewrite (left_id_L ∅ (∪)).
  - apply NoDup_cons in Hnd as [Hname Hnd]. cbn [foldl].
    rewrite filter_cons. cbn [snd].
    destruct (predicate (Status value)) eqn:Hp.
    + rewrite decide_True by (cbn; congruence). rewrite IH; [|done|].
      * cbn [list_to_map foldr]. rewrite <- insert_union_l.
        rewrite <- insert_union_r; [done|].
        apply not_elem_of_list_to_map_1. intros Hin. apply Hname.
        eapply elem_of_sublist; [exact Hin|].
        apply fmap_sublist, sublist_filter.
      * intros name' Hin. rewrite lookup_insert_ne.
        -- apply Hfresh. cbn. by right.
        -- intros ->. done.
    + rewrite decide_False by (cbn; congruence). apply IH; [done|].
      intros name' Hin. apply Hfresh. cbn. by right.
Qed.

Lemma filterByStatus_range_list order predicate :
  NoDup order.*1 ->
  filterByStatus_range order predicate
  = list_to_map (filter (fun kv => predicate (Status kv.2) = true) order).
Proof.
  intros Hnd. unfold filterByStatus_range.
  rewrite filterByStatus_loop; [|done|by intros; apply lookup_empty].
  by rewrite (right_id_L ∅ (∪)).
Qed.

Lemma NoDup_range order m : order ≡ₚ map_to_list m -> NoDup order.*1.
Proof. intros ->. apply NoDup_fst_map_to_list. Qed.

(** Whatever order [range] picks, [filterByStatus] returns the entries
    of the map that satisfy the predicate. *)
Lemma filterByStatus_range_filter order predicate m :
  order ≡ₚ map_to_list m ->
  filterByStatus_range order predicate
  = filter (fun kv => predicate (Status kv.2) = true) m.
Proof.
  intros Hperm. rewrite filterByStatus_range_list by eauto using NoDup_range.
  rewrite map_filter_alt. apply list_to_map_proper.
  - eapply sublist_NoDup; [|apply fmap_sublist, sublist_filter].
    eauto using NoDup_range.
  - by rewrite Hperm.
Qed.

(** ... and their number is the number of plugins with such a status. *)
Lemma len_filterByStatus_range order predicate m :
  order ≡ₚ map_to_list m ->
  len (filterByStatus_range order predicate) = count_status predicate m.
Proof.
  intros Hperm. unfold len, count_status. f_equal.
  rewrite filterByStatus_range_list by eauto using NoDup_range.
  rewrite map_size_list_to_map.
  - by rewrite Hperm.
  - eapply sublist_NoDup; [|apply fmap_sublist, sublist_filter].
    eauto using NoDup_range.
Qed.

Lemma count_status_ext (P Q : ResultStatus -> bool) m :
  (forall s, P s = Q s) -> count_status P m = count_status Q m.
Proof.
  intros HPQ. unfold count_status. f_equal. f_equal.
  apply list_filter_iff. intros kv. by rewrite HPQ.
Qed.

Lemma is_success_spec s :
  is_success s
  = bool_decide (s ∈ [ResultStatusSuccess; ResultStatusSuccessAndReboot;
                      ResultStatusPassedAndReboot]).
Proof.
  unfold is_success. apply eq_true_iff_eq.
  rewrite !orb_true_iff, !bool_decide_eq_true, !elem_of_cons, elem_of_nil.
  tauto.
Qed.

(** The template, instantiated. *)
Lemma Sprintf_outputMessageTemplate (completed total : Z) (plural : string)
    (success failed timedOut : Z) :
  fmt.Sprintf outputMessageTemplate
    [fmt.OInt completed; fmt.OInt total; fmt.OString plural;
     fmt.OInt success; fmt.OInt failed; fmt.OInt timedOut]
  = sentence completed total plural success failed timedOut.
Proof. reflexivity. Qed.

Lemma plural_code_eq (total : Z) :
  (if bool_decide (total > 1) then "s" else "") = plural_code total.
Proof.
  unfold plural_code. repeat case_bool_decide; (done || lia).
Qed.

(** [buildOutput], for any four enumeration orders, is the sentence over
    the four counts. *)
Lemma buildOutput_range_sentence o1 o2 o3 o4 m (total : Z) :
  o1 ≡ₚ map_to_list m -> o2 ≡ₚ map_to_list m ->
  o3 ≡ₚ map_to_list m -> o4 ≡ₚ map_to_list m ->
  buildOutput_range o1 o2 o3 o4 total
  = sentence (processed_spec m) total (plural_code total)
      (succeeded_spec m) (failed_spec m) (timedOut_spec m).
Proof.
  intros H1 H2 H3 H4. unfold buildOutput_range. cbv zeta.
  rewrite Sprintf_outputMessageTemplate, plural_code_eq.
  rewrite (len_filterByStatus_range o1 _ m H1),
          (len_filterByStatus_range o2 _ m H2),
          (len_filterByStatus_range o3 _ m H3),
          (len_filterByStatus_range o4 _ m H4).
  unfold succeeded_spec.
  by rewrite (count_status_ext is_success _ m is_success_spec).
Qed.

Lemma buildOutput_sentence m (total : Z) :
  buildOutput m total
  = sentence (processed_spec m) total (plural_code total)
      (succeeded_spec m) (failed_spec m) (timedOut_spec m).
Proof.
change (buildOutput m total)
  with (buildOutput_range (map_to_list m) (map_to_list m) (map_to_list m)
          (map_to_list m) total).
by apply buildOutput_range_sentence.
Qed.

End Aggregator.

(** C4, as the code has it.  For every runtime-status mapping, every
    declared total and every order in which the four loops of
    [buildOutput] may enumerate the map, the summary is the sentence over
    processed = number of plugins whose status is not the empty string (a
    plugin whose status is not-started counts as processed), succeeded = number with a status among
    success, success-and-reboot and passed-and-reboot, failed = number with
    status failed, timedOut = number with status timed-out; hence it is the
    same string as for any other enumeration order. *)
Theorem buildOutput_counts_deterministic
    (runtimeStatuses : RuntimeStatuses) (totalNumberOfPlugins : Z)
    (o1 o2 o3 o4 : list (string * PluginRuntimeStatus)) :
  o1 ≡ₚ map_to_list runtimeStatuses ->
  o2 ≡ₚ map_to_list runtimeStatuses ->
  o3 ≡ₚ map_to_list runtimeStatuses ->
  o4 ≡ₚ map_to_list runtimeStatuses ->
  buildOutput_range o1 o2 o3 o4 totalNumberOfPlugins
  = sentence (processed_spec runtimeStatuses) totalNumberOfPlugins
      (plural_code totalNumberOfPlugins)
      (succeeded_spec runtimeStatuses) (failed_spec runtimeStatuses)
      (timedOut_spec runtimeStatuses)
  /\ buildOutput_range o1 o2 o3 o4 totalNumberOfPlugins
     = buildOutput runtimeStatuses totalNumberOfPlugins.
Proof.
  intros H1 H2 H3 H4. split.
  - by apply buildOutput_range_sentence.
  - rewrite buildOutput_sentence. by apply buildOutput_range_sentence.
Qed.

(** C4, as stated, fails for a plugin whose status is the not-started
    code: the status is not empty, so the code counts the plugin as
    processed, while a count of the plugins whose status is set counts
    none. *)
Lemma buildOutput_counts_not_started :
  buildOutput waiting_plugin 1
  = "1 out of 1 plugin processed, 0 success, 0 failed, 0 timedout"
  /\ processed_stated waiting_plugin = 0
  /\ buildOutput waiting_plugin 1
     <> sentence (processed_stated waiting_plugin) 1 (plural_code 1)
          (succeeded_spec waiting_plugin) (failed_spec waiting_plugin)
          (timedOut_spec waiting_plugin).
Proof.
  split; [reflexivity|]. split; [reflexivity|]. vm_compute. discriminate.
Qed.

(** Two plugins, one succeeded and one failed, enumerated both ways. *)
Lemma buildOutput_counts_deterministic_witness :
  buildOutput_range (map_to_list two_plugins) (reverse (map_to_list two_plugins))
    (map_to_list two_plugins) (reverse (map_to_list two_plugins)) 2
  = "2 out of 2 plugins processed, 1 success, 1 failed, 0 timedout"
  /\ buildOutput two_plugins 2
     = "2 out of 2 plugins processed, 1 success, 1 failed, 0 timedout".
Proof.
  destruct (buildOutput_counts_deterministic two_plugins 2
              (map_to_list two_plugins) (reverse (map_to_list two_plugins))
              (map_to_list two_plugins) (reverse (map_to_list two_plugins)))
    as [Hsentence Hsame].
  - reflexivity.
  - apply reverse_Permutation.
  - reflexivity.
  - apply reverse_Permutation.
  - split.
    + rewrite Hsentence. vm_compute. reflexivity.
    + rewrite <- Hsame, Hsentence. vm_compute. reflexivity.
Defined.

(** C5, as the code has it.  [buildOutput] returns exactly the sentence
    "<processed> out of <total> plugin<s> processed, <succeeded> success,
    <failed> failed, <timedOut> timedout"; the suffix keys off the declared
    total and is an "s" exactly when the total is greater than one, so a
    total of one and a total of zero both print "plugin". *)
Theorem buildOutput_sentence_plural
    (runtimeStatuses : RuntimeStatuses) (totalNumberOfPlugins : Z) :
  buildOutput runtimeStatuses totalNumberOfPlugins
  = pretty (processed_spec runtimeStatuses) +:+ " out of "
    +:+ pretty totalNumberOfPlugins +:+ " plugin"
    +:+ (if bool_decide (1 < totalNumberOfPlugins) then "s" else "")
    +:+ " processed, " +:+ pretty (succeeded_spec runtimeStatuses)
    +:+ " success, " +:+ pretty (failed_spec runtimeStatuses)
    +:+ " failed, " +:+ pretty (timedOut_spec runtimeStatuses) +:+ " timedout".
Proof. apply buildOutput_sentence. Qed.

(** C5, as stated, fails for a declared total of zero: the code prints
    "plugin", the stated rule asks for "plugins". *)
Lemma buildOutput_zero_total_singular :
  buildOutput ∅ 0 = "0 out of 0 plugin processed, 0 success, 0 failed, 0 timedout"
  /\ buildOutput ∅ 0
     <> sentence (processed_spec ∅) 0 (plural_spec 0)
          (succeeded_spec ∅) (failed_spec ∅) (timedOut_spec ∅).
Proof. split; [reflexivity | vm_compute; discriminate]. Qed.

(** ** Reasoning about traces *)

Section Traces.

Implicit Types (P Q : Event -> bool) (w : World).

Lemma extends_with_refl P w : extends_with P w w.
Proof. exists []. by rewrite app_nil_r. Qed.

Lemma extends_with_trans P w1 w2 w3 :
  extends_with P w1 w2 -> extends_with P w2 w3 -> extends_with P w1 w3.
Proof.
  intros (e1 & H1 & F1) (e2 & H2 & F2). exists (e1 ++ e2). split.
  - by rewrite H2, H1, app_assoc.
  - by rewrite forallb_app, F1, F2.
Qed.

Lemma extends_with_mono P Q w1 w2 :
  (forall e, P e = true -> Q e = true) ->
  extends_with P w1 w2 -> extends_with Q w1 w2.
Proof.
  intros HPQ (evs & H & F). exists evs. split; [done|].
  apply forallb_forall. intros e He.
  apply HPQ. by eapply forallb_forall in F.
Qed.

End Traces.

(** ** Enqueueing a pending document *)

Section Pending.

Variable env : Env.
Import stateModel.

Lemma append_empty_r (s : string) : s +:+ "" = s.
Proof.
  induction s as [|c s IH]; [done|].
  change (String c (s +:+ "") = String c s). by rewrite IH.
Qed.

Lemma Errorf_wrapped (err : string) :
  fmt.Sprintf "failed to process association, %v" [fmt.OString err]
  = wrapped err.
Proof. unfold wrapped. rewrite <- (append_empty_r err) at 2. reflexivity. Qed.

(** The run of [ExecutePendingDocument], call by call. *)
Lemma ExecutePendingDocument_run (docState : DocumentState) (w : World) :
  let docInfo := DocumentInformation docState in
  let h := trace w ++ [pending_update env docState (trace w); pending_move docState] in
  ExecutePendingDocument env docState w
  = (wrapped <$> Submit_error env h (AssociationID docInfo),
     {| store :=
          match store w !! (DocumentID docInfo, InstanceID docInfo,
                            appconfig.DefaultLocationOfPending) with
          | Some info =>
              <[(DocumentID docInfo, InstanceID docInfo,
                 appconfig.DefaultLocationOfCurrent) := info]>
                (delete (DocumentID docInfo, InstanceID docInfo,
                         appconfig.DefaultLocationOfPending) (store w))
          | None => store w
          end;
        trace := h ++ [pending_submit docState] |}).
Proof.
  unfold ExecutePendingDocument, UpdateInstanceAssociationStatus,
    MoveDocumentState, Submit, bind, ask, emit, ret.
  cbn -[fmt.Sprintf]. rewrite <- !app_assoc. cbn -[fmt.Sprintf].
  destruct (store w !! _) as [info|] eqn:Hs; cbn -[fmt.Sprintf];
    destruct (Submit_error env _ _) as [err|];
    rewrite ?Errorf_wrapped, <- ?app_assoc; reflexivity.
Qed.

(** C3.  On a document that resides in "pending", [ExecutePendingDocument]
    makes three calls in this order: the "pending" status update, the
    move of the record from "pending" to "current", and the submission,
    keyed by the association id, of a job that runs
    [ExecuteInProgressDocument] on the document with whatever token the
    pool supplies.  It returns an error exactly when the submission
    fails, and then the wrapped one; whether or not the submission
    fails, the record is in "current" afterwards and no longer in
    "pending". *)
Theorem ExecutePendingDocument_order
    (docState : DocumentState) (w : World) (info : DocumentInfo) :
  let docInfo := DocumentInformation docState in
  let h := trace w ++ [pending_update env docState (trace w); pending_move docState] in
  let submitted := Submit_error env h (AssociationID docInfo) in
  let r := ExecutePendingDocument env docState w in
  store w !! (DocumentID docInfo, InstanceID docInfo,
              appconfig.DefaultLocationOfPending) = Some info ->
  trace r.2 = h ++ [pending_submit docState]
  /\ (forall cancelFlag,
        runJob env (ExecuteInProgressDocumentJob docState) cancelFlag
        = ExecuteInProgressDocument env docState cancelFlag)
  /\ r.1 = wrapped <$> submitted
  /\ (is_Some r.1 <-> is_Some submitted)
  /\ store r.2 !! (DocumentID docInfo, InstanceID docInfo,
                   appconfig.DefaultLocationOfCurrent) = Some info
  /\ store r.2 !! (DocumentID docInfo, InstanceID docInfo,
                   appconfig.DefaultLocationOfPending) = None.
Proof.
  intros docInfo h submitted r Hpending. subst r.
  rewrite ExecutePendingDocument_run. cbn [fst snd store trace].
  fold docInfo. rewrite Hpending. fold h. fold submitted.
  repeat split.
  - by rewrite fmap_is_Some.
  - by rewrite fmap_is_Some.
  - apply lookup_insert_eq.
  - rewrite lookup_insert_ne by (intros [=]; discriminate).
    apply lookup_delete_eq.
Qed.

(** C10.  The error result of [ExecutePendingDocument] is decided by the
    submission alone: whatever the status service answers to the
    "pending" update and whether or not the store holds the record to
    move, both calls are made, their results are dropped, and the result
    is nil when the submission succeeds and the wrapped error when it
    fails. *)
Theorem ExecutePendingDocument_error
    (docState : DocumentState) (w : World) :
  let docInfo := DocumentInformation docState in
  let h := trace w ++ [pending_update env docState (trace w); pending_move docState] in
  let r := ExecutePendingDocument env docState w in
  trace r.2 = h ++ [pending_submit docState]
  /\ r.1 = match Submit_error env h (AssociationID docInfo) with
           | Some err => Some ("failed to process association, " +:+ err)
           | None => None
           end.
Proof.
  intros docInfo h r. subst r.
  rewrite ExecutePendingDocument_run. cbn [fst snd store trace].
  fold docInfo. fold h. split; [done|].
  by destruct (Submit_error env h (AssociationID docInfo)).
Qed.

End Pending.

(** ** Reloading, overlaying and persisting the reply *)

Section Reply.

Variable env : Env.
Import stateModel.

Lemma parseAndPersistReplyContents_run
    (docState : DocumentState) (pluginOutputs : PluginOutputs) (w : World) :
  let merged := overlay (reloaded_info docState w)
                  (reply_payload env docState pluginOutputs w) in
  parseAndPersistReplyContents env docState pluginOutputs w
  = ({| DocumentInformation := merged;
        InstancePluginsInformation := InstancePluginsInformation docState |},
     {| store := <[(DocumentID merged, InstanceID merged,
                    appconfig.DefaultLocationOfCurrent) := merged]> (store w);
        trace := trace w ++
                 [reload_event docState;
                  EvPersistDocumentInfo merged (DocumentID merged)
                    (InstanceID merged) appconfig.DefaultLocationOfCurrent] |}).
Proof.
  unfold parseAndPersistReplyContents, GetDocumentInfo, PersistDocumentInfo,
    bind, ask, emit, ret. cbn. by rewrite <- app_assoc.
Qed.

(** After the call the merged record is what "current" holds for the
    document's (reloaded) ids. *)
Lemma parseAndPersistReplyContents_current
    (docState docState' : DocumentState) (pluginOutputs : PluginOutputs)
    (w w' : World) :
  parseAndPersistReplyContents env docState pluginOutputs w = (docState', w') ->
  store w' !! (DocumentID (DocumentInformation docState'),
               InstanceID (DocumentInformation docState'),
               appconfig.DefaultLocationOfCurrent)
  = Some (DocumentInformation docState').
Proof.
  rewrite parseAndPersistReplyContents_run. intros [= <- <-]. cbn.
  apply lookup_insert_eq.
Qed.

Lemma emits_parseAndPersistReplyContents docState pluginOutputs :
  emits is_store_access
    (parseAndPersistReplyContents env docState pluginOutputs).
Proof.
  intros w. rewrite parseAndPersistReplyContents_run. cbn.
  eexists. split; [reflexivity|]. reflexivity.
Qed.

(** C8.  [parseAndPersistReplyContents] reloads the record that "current"
    holds for the document, overwrites in it exactly the aggregate
    status, the runtime-status map, the trace output and the additional
    info with those of the freshly built reply payload, leaves the ids,
    the names and the created date of the reloaded record and the plugin
    list of the document as they are, and writes the merged record back
    to "current". *)
Theorem parseAndPersistReplyContents_overlay
    (docState : DocumentState) (pluginOutputs : PluginOutputs) (w : World) :
  let reloaded := reloaded_info docState w in
  let payload := reply_payload env docState pluginOutputs w in
  let r := parseAndPersistReplyContents env docState pluginOutputs w in
  let merged := DocumentInformation r.1 in
  (DocumentStatus merged = reply.DocumentStatus payload
   /\ RuntimeStatus merged = reply.RuntimeStatus payload
   /\ DocumentTraceOutput merged = reply.DocumentTraceOutput payload
   /\ AdditionalInfo merged = reply.AdditionalInfo payload)
  /\ (AssociationID merged = AssociationID reloaded
      /\ DocumentID merged = DocumentID reloaded
      /\ DocumentName merged = DocumentName reloaded
      /\ InstanceID merged = InstanceID reloaded
      /\ CreatedDate merged = CreatedDate reloaded)
  /\ InstancePluginsInformation r.1 = InstancePluginsInformation docState
  /\ store r.2
     = <[(DocumentID reloaded, InstanceID reloaded,
          appconfig.DefaultLocationOfCurrent) := merged]> (store w)
  /\ trace r.2
     = trace w ++
       [reload_event docState;
        EvPersistDocumentInfo merged (DocumentID reloaded)
          (InstanceID reloaded) appconfig.DefaultLocationOfCurrent].
Proof.
  intros reloaded payload r merged. subst r merged.
  rewrite parseAndPersistReplyContents_run. cbn. done.
Qed.

End Reply.

(** ** The progress callback *)

Section Progress.

Variable env : Env.
Import stateModel.

Lemma pluginExecutionReport_run associationID documentCreatedDate
    pluginOutputs totalNumberOfPlugins (w : World) :
  pluginExecutionReport env associationID documentCreatedDate
    pluginOutputs totalNumberOfPlugins w
  = (tt, after w (progress_events env associationID pluginOutputs
                    totalNumberOfPlugins (trace w))).
Proof.
  unfold pluginExecutionReport, progress_events, after,
    UpdateInstanceAssociationStatus, log_Error, bind, ask, emit, ret.
  destruct w as [st h]. cbn.
  destruct (Marshal_outputs env h pluginOutputs) as [content|err]; cbn;
    [|done].
  destruct (IsInstanceAssociationApiMode env h); cbn;
    [|by rewrite app_nil_r].
  by destruct (platform_InstanceID env h) as [instanceID|err].
Qed.

Lemma progress_events_is_progress associationID pluginOutputs total h :
  forallb is_progress
    (progress_events env associationID pluginOutputs total h) = true.
Proof.
  unfold progress_events.
  destruct (Marshal_outputs env h pluginOutputs); [|done].
  destruct (IsInstanceAssociationApiMode env h); [|done].
  by destruct (platform_InstanceID env h).
Qed.

Lemma progress_events_no_plugin associationID pluginOutputs total h :
  executed_plugins (progress_events env associationID pluginOutputs total h) = [].
Proof.
  unfold progress_events.
  destruct (Marshal_outputs env h pluginOutputs); [|done].
  destruct (IsInstanceAssociationApiMode env h); [|done].
  by destruct (platform_InstanceID env h).
Qed.

Lemma executed_plugins_app h1 h2 :
  executed_plugins (h1 ++ h2) = executed_plugins h1 ++ executed_plugins h2.
Proof. apply omap_app. Qed.

Lemma executed_plugins_cons n h :
  executed_plugins (EvExecutePlugin n :: h) = n :: executed_plugins h.
Proof. reflexivity. Qed.

(** One turn of the engine's loop with the progress callback. *)
Lemma RunPlugins_from_cons associationID createdDate p rest total
    cancelFlag pluginOutputs (w : World) :
  let outputs := <[Name p := plugin_result env (trace w) p cancelFlag]>
                   pluginOutputs in
  RunPlugins_from env associationID createdDate (p :: rest) total
    (pluginExecutionReport env) cancelFlag pluginOutputs w
  = RunPlugins_from env associationID createdDate rest total
      (pluginExecutionReport env) cancelFlag outputs
      (after w (EvExecutePlugin (Name p)
                :: progress_events env associationID outputs total
                     (trace w ++ [EvExecutePlugin (Name p)]))).
Proof.
  cbn [RunPlugins_from]. unfold bind, ask, emit.
  cbn -[pluginExecutionReport RunPlugins_from].
  rewrite pluginExecutionReport_run. unfold after. cbn [store trace].
  by rewrite <- app_assoc.
Qed.

(** The engine, driven with the progress callback, goes through every
    plugin of the list: the callback never stops it. *)
Lemma RunPlugins_from_executes associationID createdDate plugins total
    cancelFlag pluginOutputs (w : World) :
  let r := RunPlugins_from env associationID createdDate plugins total
             (pluginExecutionReport env) cancelFlag pluginOutputs w in
  executed_plugins (trace r.2)
  = executed_plugins (trace w) ++ map Name plugins
  /\ store r.2 = store w
  /\ extends_with is_progress w r.2.
Proof.
  revert pluginOutputs w.
  induction plugins as [|p rest IH]; intros pluginOutputs w; cbn zeta.
  - cbn. rewrite app_nil_r. repeat split. apply extends_with_refl.
  - rewrite RunPlugins_from_cons. cbn zeta.
    set (outputs := <[Name p := _]> pluginOutputs).
    set (w1 := after _ _).
    destruct (IH outputs w1) as (Hexec & Hstore & Hext).
    repeat split.
    + rewrite Hexec. subst w1. cbn [after trace].
      rewrite executed_plugins_app, executed_plugins_cons.
      rewrite progress_events_no_plugin.
      cbn [map]. by rewrite <- app_assoc.
    + by rewrite Hstore.
    + eapply extends_with_trans; [|exact Hext].
      subst w1. unfold after. cbn [trace].
      eexists (_ :: _). split; [reflexivity|].
      cbn [forallb is_progress]. apply progress_events_is_progress.
Qed.

(** C9.  One invocation of [pluginExecutionReport] leaves the store alone
    and makes at most one call: an error log line when marshalling the
    plugin outputs fails; nothing when the service is not in instance
    association API mode; an error log line when the instance id cannot
    be resolved; otherwise one "in-progress" status update that carries
    the execution summary.  So a status update is pushed only in API
    mode, the callback always returns (its result is the unit value,
    there is no error to return), and the engine driven with it runs
    every plugin of the list. *)
Theorem pluginExecutionReport_progress
    (associationID documentCreatedDate : string)
    (pluginOutputs : PluginOutputs) (totalNumberOfPlugins : Z) (w : World) :
  let h := trace w in
  let r := pluginExecutionReport env associationID documentCreatedDate
             pluginOutputs totalNumberOfPlugins w in
  let calls :=
    match Marshal_outputs env h pluginOutputs with
    | inr err => [EvLogError ("could not marshal plugin outputs! " +:+ err)]
    | inl _ =>
        if IsInstanceAssociationApiMode env h then
          match platform_InstanceID env h with
          | inr err => [EvLogError ("failed to load instance id " +:+ err)]
          | inl instanceID =>
              [EvUpdateInstanceAssociationStatus associationID "" instanceID
                 AssociationStatusInProgress AssociationErrorCodeNoError
                 (Now env h)
                 (buildOutput (PrepareRuntimeStatuses env pluginOutputs)
                    totalNumberOfPlugins)]
          end
        else []
    end in
  r = (tt, {| store := store w; trace := h ++ calls |})
  /\ existsb is_status_update calls
     = IsInstanceAssociationApiMode env h
       && is_ok (Marshal_outputs env h pluginOutputs)
       && is_ok (platform_InstanceID env h)
  /\ (forall plugins cancelFlag w0,
        executed_plugins
          (trace (RunPlugins env associationID documentCreatedDate plugins
                    (pluginExecutionReport env) cancelFlag w0).2)
        = executed_plugins (trace w0) ++ map Name plugins).
Proof.
  intros h r calls. subst r. rewrite pluginExecutionReport_run.
  change (progress_events env associationID pluginOutputs totalNumberOfPlugins
            (trace w)) with calls.
  split; [done|]. split.
  - subst calls.
    destruct (Marshal_outputs env h pluginOutputs);
      destruct (IsInstanceAssociationApiMode env h);
      destruct (platform_InstanceID env h); reflexivity.
  - intros plugins cancelFlag w0. unfold RunPlugins.
    apply RunPlugins_from_executes.
Qed.

End Progress.

(** ** Running a document *)

Section InProgress.

Variable env : Env.
Import stateModel.

Lemma associationExecutionReport_run docInfo runtimeStatuses total
    errorCode associationStatus (w : World) :
  associationExecutionReport env docInfo runtimeStatuses total errorCode
    associationStatus w
  = (tt, after w (report_events env docInfo runtimeStatuses total errorCode
                    associationStatus (trace w))).
Proof.
  unfold associationExecutionReport, report_events, after,
    UpdateInstanceAssociationStatus, log_Error, bind, ask, emit, ret.
  destruct w as [st h]. cbn.
  by destruct (Marshal_statuses env h runtimeStatuses).
Qed.

Lemma deferred_run (docState : DocumentState) (w : World) :
  (UpdateNextScheduledDate
     (AssociationID (DocumentInformation docState)) ;;;
   ExecuteAssociation) w
  = (tt, after w (cleanup_events docState)).
Proof.
  unfold UpdateNextScheduledDate, ExecuteAssociation, bind, emit, after,
    cleanup_events. cbn. by rewrite <- app_assoc.
Qed.

(** [ExecuteInProgressDocument] is its body followed by the two deferred
    calls. *)
Lemma ExecuteInProgressDocument_defer docState cancelFlag (w : World) :
  ExecuteInProgressDocument env docState cancelFlag w
  = let r := ExecuteInProgressDocument_body env docState cancelFlag w in
    (r.1, after r.2 (cleanup_events r.1)).
Proof.
  unfold ExecuteInProgressDocument, defer. unfold bind at 1.
  destruct (ExecuteInProgressDocument_body env docState cancelFlag w)
    as [docState' w'].
  unfold bind at 1. rewrite deferred_run. reflexivity.
Qed.

(** *** The four ways through the body *)

Lemma body_marshal_failed docState cancelFlag (w w1 : World) outputs err :
  engine_run env docState cancelFlag w = (outputs, w1) ->
  Marshal_outputs env (trace w1) outputs = inr err ->
  ExecuteInProgressDocument_body env docState cancelFlag w
  = (docState,
     after w1 [EvLogError ("failed to parse to json string " +:+ err)]).
Proof.
  unfold engine_run. intros Hrun Hm.
  unfold ExecuteInProgressDocument_body. cbv zeta. unfold bind at 1.
  rewrite Hrun. unfold bind at 1, ask at 1. rewrite Hm. reflexivity.
Qed.

Lemma body_reboot docState cancelFlag (w w1 w2 : World) outputs content
    docState2 :
  engine_run env docState cancelFlag w = (outputs, w1) ->
  Marshal_outputs env (trace w1) outputs = inl content ->
  parseAndPersistReplyContents env docState outputs w1 = (docState2, w2) ->
  IsRebootRequired env docState2 = true ->
  ExecuteInProgressDocument_body env docState cancelFlag w = (docState2, w2).
Proof.
  unfold engine_run. intros Hrun Hm Hparse Hreboot.
  unfold ExecuteInProgressDocument_body. cbv zeta. unfold bind at 1.
  rewrite Hrun. unfold bind at 1, ask at 1. rewrite Hm.
  unfold bind at 1. rewrite Hparse, Hreboot. reflexivity.
Qed.

Lemma body_second_marshal_failed docState cancelFlag (w w1 w2 : World)
    outputs content docState2 err :
  engine_run env docState cancelFlag w = (outputs, w1) ->
  Marshal_outputs env (trace w1) outputs = inl content ->
  parseAndPersistReplyContents env docState outputs w1 = (docState2, w2) ->
  IsRebootRequired env docState2 = false ->
  Marshal_outputs env (trace w2) outputs = inr err ->
  ExecuteInProgressDocument_body env docState cancelFlag w
  = (docState2,
     after w2 [EvLogError ("failed to parse to json string " +:+ err)]).
Proof.
  unfold engine_run. intros Hrun Hm Hparse Hreboot Hm2.
  unfold ExecuteInProgressDocument_body. cbv zeta. unfold bind at 1.
  rewrite Hrun. unfold bind at 1, ask at 1. rewrite Hm.
  unfold bind at 1. rewrite Hparse, Hreboot.
  unfold bind at 1, ask at 1. rewrite Hm2. reflexivity.
Qed.

Lemma body_completed docState cancelFlag (w w1 w2 : World)
    outputs content content2 docState2 :
  engine_run env docState cancelFlag w = (outputs, w1) ->
  Marshal_outputs env (trace w1) outputs = inl content ->
  parseAndPersistReplyContents env docState outputs w1 = (docState2, w2) ->
  IsRebootRequired env docState2 = false ->
  Marshal_outputs env (trace w2) outputs = inl content2 ->
  let docInfo := DocumentInformation docState2 in
  let total := Z.of_nat (length (InstancePluginsInformation docState)) in
  ExecuteInProgressDocument_body env docState cancelFlag w
  = (docState2,
     {| store := completed_store docInfo (store w2);
        trace := trace w2 ++ terminal_events env docInfo total (trace w2)
                 ++ [completed_move docInfo] |}).
Proof.
  intros Hrun Hm Hparse Hreboot Hm2 docInfo total.
  unfold engine_run in Hrun.
  pose proof (parseAndPersistReplyContents_current env _ _ _ _ _ Hparse)
    as Hcurrent. fold docInfo in Hcurrent.
  unfold ExecuteInProgressDocument_body. cbv zeta. unfold bind at 1.
  rewrite Hrun. unfold bind at 1, ask at 1. rewrite Hm.
  unfold bind at 1. rewrite Hparse, Hreboot.
  unfold bind at 1, ask at 1. rewrite Hm2.
  fold docInfo. fold total. unfold bind at 1.
  assert (Hreport :
    (if bool_decide (DocumentStatus docInfo = ResultStatusFailed)
     then associationExecutionReport env docInfo (RuntimeStatus docInfo)
            total AssociationErrorCodeExecutionError AssociationStatusNameFailed
     else if bool_decide (DocumentStatus docInfo = ResultStatusSuccess)
     then associationExecutionReport env docInfo (RuntimeStatus docInfo)
            total AssociationErrorCodeNoError AssociationStatusSuccess
     else ret tt) w2
    = (tt, after w2 (terminal_events env docInfo total (trace w2)))).
  { unfold terminal_events. repeat case_bool_decide;
      rewrite ?associationExecutionReport_run; try reflexivity.
    unfold ret, after. rewrite app_nil_r. by destruct w2. }
  rewrite Hreport. unfold bind at 1, MoveDocumentState.
  unfold bind, emit, ret, after. cbn [store trace].
  rewrite Hcurrent. unfold completed_store.
  by rewrite <- app_assoc.
Qed.

(** *** What the body may call *)

Lemma extends_with_after P (w : World) evs :
  forallb P evs = true -> extends_with P w (after w evs).
Proof. intros HP. by exists evs. Qed.

Lemma engine_run_progress docState cancelFlag (w w1 : World) outputs :
  engine_run env docState cancelFlag w = (outputs, w1) ->
  extends_with is_progress w w1 /\ store w1 = store w.
Proof.
  unfold engine_run, RunPlugins. intros Hrun.
  pose proof (RunPlugins_from_executes env
                (AssociationID (DocumentInformation docState))
                (CreatedDate (DocumentInformation docState))
                (InstancePluginsInformation docState)
                (Z.of_nat (length (InstancePluginsInformation docState)))
                cancelFlag ∅ w) as H.
  cbv zeta in H. rewrite Hrun in H. cbn [snd] in H. tauto.
Qed.

Lemma parse_store_access docState outputs (w1 w2 : World) docState2 :
  parseAndPersistReplyContents env docState outputs w1 = (docState2, w2) ->
  extends_with is_store_access w1 w2.
Proof.
  intros Hparse.
  pose proof (emits_parseAndPersistReplyContents env docState outputs w1) as H.
  by rewrite Hparse in H.
Qed.

Lemma report_events_terminal docInfo runtimeStatuses total errorCode
    associationStatus h :
  associationStatus = AssociationStatusNameFailed
  \/ associationStatus = AssociationStatusSuccess ->
  forallb (fun e => is_terminal_report e || is_progress e)
    (report_events env docInfo runtimeStatuses total errorCode
       associationStatus h) = true.
Proof.
  intros Hst. unfold report_events.
  destruct (Marshal_statuses env h runtimeStatuses); [|done].
  by destruct Hst as [-> | ->].
Qed.

Lemma terminal_events_classified docInfo total h :
  forallb (fun e => is_terminal_report e || is_progress e)
    (terminal_events env docInfo total h) = true.
Proof.
  unfold terminal_events. repeat case_bool_decide;
    try (apply report_events_terminal; tauto). done.
Qed.

Lemma terminal_events_not_cleanup docInfo total h :
  forallb not_cleanup (terminal_events env docInfo total h) = true.
Proof.
  pose proof (terminal_events_classified docInfo total h) as H.
  apply forallb_forall. intros e He.
  eapply forallb_forall in H; [|exact He].
  by destruct e as [? ? ? [] | | | | | | | |].
Qed.

Lemma progress_not_cleanup e : is_progress e = true -> not_cleanup e = true.
Proof. by destruct e. Qed.

Lemma store_access_not_cleanup e :
  is_store_access e = true -> not_cleanup e = true.
Proof. by destruct e. Qed.

(** Whatever way the body takes, it calls neither
    [UpdateNextScheduledDate] nor [ExecuteAssociation]. *)
Lemma body_not_cleanup docState cancelFlag :
  emits not_cleanup (ExecuteInProgressDocument_body env docState cancelFlag).
Proof.
  intros w.
  destruct (engine_run env docState cancelFlag w) as [outputs w1] eqn:Hrun.
  destruct (engine_run_progress _ _ _ _ _ Hrun) as [Hprogress _].
  apply (extends_with_mono _ not_cleanup _ _ progress_not_cleanup)
    in Hprogress.
  eapply extends_with_trans; [exact Hprogress|].
  destruct (Marshal_outputs env (trace w1) outputs) as [content|err] eqn:Hm.
  2:{ erewrite body_marshal_failed by eauto. by apply extends_with_after. }
  destruct (parseAndPersistReplyContents env docState outputs w1)
    as [docState2 w2] eqn:Hparse.
  pose proof (parse_store_access _ _ _ _ _ Hparse) as Hstore.
  apply (extends_with_mono _ not_cleanup _ _ store_access_not_cleanup)
    in Hstore.
  eapply extends_with_trans; [exact Hstore|].
  destruct (IsRebootRequired env docState2) eqn:Hreboot.
  { erewrite body_reboot by eauto. apply extends_with_refl. }
  destruct (Marshal_outputs env (trace w2) outputs) as [content2|err] eqn:Hm2.
  2:{ erewrite body_second_marshal_failed by eauto.
      by apply extends_with_after. }
  erewrite body_completed by eauto. cbn [snd].
  eexists. split; [reflexivity|].
  by rewrite forallb_app, terminal_events_not_cleanup.
Qed.

(** C1.  Every invocation of [ExecuteInProgressDocument], whichever way
    its body returns, ends with [UpdateNextScheduledDate] immediately
    followed by [signal.ExecuteAssociation], and makes neither of these
    two calls anywhere before: each runs exactly once per invocation. *)
Theorem ExecuteInProgressDocument_deferred_once
    (docState : DocumentState) (cancelFlag : task.CancelFlag) (w : World) :
  let r := ExecuteInProgressDocument env docState cancelFlag w in
  exists calls,
    trace r.2
    = trace w ++ calls
      ++ [EvUpdateNextScheduledDate
            (AssociationID (DocumentInformation r.1));
          EvExecuteAssociation]
    /\ forallb (fun e => negb (is_cleanup e)) calls = true
    /\ length (filter (fun e => is_cleanup e = true)
                  (calls ++ [EvUpdateNextScheduledDate
                               (AssociationID (DocumentInformation r.1));
                             EvExecuteAssociation])) = 2%nat.
Proof.
  intros r. subst r. rewrite ExecuteInProgressDocument_defer. cbv zeta.
  destruct (body_not_cleanup docState cancelFlag w) as (calls & Htrace & Hnone).
  destruct (ExecuteInProgressDocument_body env docState cancelFlag w)
    as [docState' w'].
  cbn [fst snd after trace] in *. exists calls. split; [|split].
  - by rewrite Htrace, <- app_assoc.
  - exact Hnone.
  - rewrite filter_app.
    assert (filter (fun e => is_cleanup e = true) calls = []) as ->.
    { clear Htrace. induction calls as [|e calls IH]; [done|].
      cbn in Hnone. apply andb_true_iff in Hnone as [He Hrest].
      rewrite filter_cons_False.
      - by apply IH.
      - unfold not_cleanup in He. by destruct (is_cleanup e). }
    reflexivity.
Qed.

(** C2.  When the reply has been persisted and the document then requires
    a reboot, [ExecuteInProgressDocument] returns right there: after the
    persisted state it makes the two deferred calls and nothing else.
    Over the whole invocation no terminal status is reported and no
    record is moved; the record is still in "current", "completed" holds
    for it what it held before, and the next-run recomputation followed
    by the notification runs once, at the end. *)
Theorem ExecuteInProgressDocument_reboot
    (docState docState2 : DocumentState) (cancelFlag : task.CancelFlag)
    (w w1 w2 : World) (outputs : PluginOutputs) (content : string) :
  engine_run env docState cancelFlag w = (outputs, w1) ->
  Marshal_outputs env (trace w1) outputs = inl content ->
  parseAndPersistReplyContents env docState outputs w1 = (docState2, w2) ->
  IsRebootRequired env docState2 = true ->
  let docInfo := DocumentInformation docState2 in
  let r := ExecuteInProgressDocument env docState cancelFlag w in
  r = (docState2,
       {| store := store w2;
          trace := trace w2 ++ [EvUpdateNextScheduledDate (AssociationID docInfo);
                                EvExecuteAssociation] |})
  /\ (exists calls,
        trace w2 = trace w ++ calls
        /\ forallb (fun e => negb (is_terminal_report e) && negb (is_move e)
                             && negb (is_cleanup e)) calls = true)
  /\ store r.2 !! (DocumentID docInfo, InstanceID docInfo,
                   appconfig.DefaultLocationOfCurrent) = Some docInfo
  /\ store r.2 !! (DocumentID docInfo, InstanceID docInfo,
                   appconfig.DefaultLocationOfCompleted)
     = store w !! (DocumentID docInfo, InstanceID docInfo,
                   appconfig.DefaultLocationOfCompleted).
Proof.
  intros Hrun Hm Hparse Hreboot docInfo r. subst r.
  rewrite ExecuteInProgressDocument_defer.
  rewrite (body_reboot _ _ _ _ _ _ _ _ Hrun Hm Hparse Hreboot).
  cbv zeta. cbn [fst snd]. unfold after, cleanup_events. fold docInfo.
  split; [done|]. cbn [store].
  destruct (engine_run_progress _ _ _ _ _ Hrun) as [Hprogress Hstore1].
  pose proof (parse_store_access _ _ _ _ _ Hparse) as Haccess.
  split; [|split].
  - assert (extends_with
              (fun e => negb (is_terminal_report e) && negb (is_move e)
                        && negb (is_cleanup e)) w w2) as Hext.
    { eapply extends_with_trans.
      - eapply extends_with_mono; [|exact Hprogress].
        by intros [? ? ? [] | | | | | | | |].
      - eapply extends_with_mono; [|exact Haccess]. by intros []. }
    exact Hext.
  - by apply (parseAndPersistReplyContents_current env _ _ _ _ _ Hparse).
  - rewrite parseAndPersistReplyContents_run in Hparse.
    injection Hparse as Hds Hw. subst w2. cbn [store].
    rewrite lookup_insert_ne; [by rewrite Hstore1|].
    intros [=]; discriminate.
Qed.

(** C6.  When no reboot is required and serialization succeeds (of the
    outputs, both times, and of the runtime statuses the report carries,
    which the code logs as plugin outputs too), the terminal status
    follows the aggregate status of the document: for "failed" the
    report is "failed" with error code execution-error, for "success" it
    is "success" with error code none, for anything else there is no
    report.  In all three cases the record is then moved from "current"
    to "completed", and the deferred calls follow. *)
Theorem ExecuteInProgressDocument_terminal
    (docState docState2 : DocumentState) (cancelFlag : task.CancelFlag)
    (w w1 w2 : World) (outputs : PluginOutputs)
    (content content2 content3 : string) :
  engine_run env docState cancelFlag w = (outputs, w1) ->
  Marshal_outputs env (trace w1) outputs = inl content ->
  parseAndPersistReplyContents env docState outputs w1 = (docState2, w2) ->
  IsRebootRequired env docState2 = false ->
  Marshal_outputs env (trace w2) outputs = inl content2 ->
  Marshal_statuses env (trace w2)
    (RuntimeStatus (DocumentInformation docState2)) = inl content3 ->
  let docInfo := DocumentInformation docState2 in
  let total := Z.of_nat (length (InstancePluginsInformation docState)) in
  let h := trace w2 in
  let report status errorCode :=
    [EvUpdateInstanceAssociationStatus
       (AssociationID docInfo) (DocumentName docInfo) (InstanceID docInfo)
       status errorCode (Now env h)
       (buildOutput (RuntimeStatus docInfo) total)] in
  let reported :=
    if bool_decide (DocumentStatus docInfo = ResultStatusFailed) then
      report AssociationStatusNameFailed AssociationErrorCodeExecutionError
    else if bool_decide (DocumentStatus docInfo = ResultStatusSuccess) then
      report AssociationStatusSuccess AssociationErrorCodeNoError
    else [] in
  let r := ExecuteInProgressDocument env docState cancelFlag w in
  r.1 = docState2
  /\ trace r.2
     = h ++ reported
       ++ [EvMoveDocumentState (DocumentID docInfo) (InstanceID docInfo)
             appconfig.DefaultLocationOfCurrent
             appconfig.DefaultLocationOfCompleted;
           EvUpdateNextScheduledDate (AssociationID docInfo);
           EvExecuteAssociation]
  /\ store r.2 !! (DocumentID docInfo, InstanceID docInfo,
                   appconfig.DefaultLocationOfCompleted) = Some docInfo
  /\ store r.2 !! (DocumentID docInfo, InstanceID docInfo,
                   appconfig.DefaultLocationOfCurrent) = None.
Proof.
  intros Hrun Hm Hparse Hreboot Hm2 Hm3 docInfo total h report reported r.
  subst r. rewrite ExecuteInProgressDocument_defer.
  rewrite (body_completed _ _ _ _ _ _ _ _ _ Hrun Hm Hparse Hreboot Hm2).
  cbv zeta. cbn [fst snd after store trace].
  fold docInfo. fold total. fold h.
  assert (terminal_events env docInfo total h = reported) as ->.
  { unfold terminal_events, reported, report, report_events.
    fold docInfo in Hm3. fold h in Hm3. rewrite Hm3.
    by repeat case_bool_decide. }
  split; [done|]. split; [|split].
  - unfold completed_move, cleanup_events. fold docInfo.
    by rewrite <- !app_assoc.
  - unfold completed_store. apply lookup_insert_eq.
  - unfold completed_store.
    rewrite lookup_insert_ne by (intros [=]; discriminate).
    apply lookup_delete_eq.
Qed.

(** C7.  When marshalling the plugin outputs fails, be it right after the
    engine returned or after the reply was persisted and no reboot is
    required, [ExecuteInProgressDocument] logs the failure, skips what is
    left of its body and still makes the two deferred calls; it returns
    to its caller as on any other path. *)
Theorem ExecuteInProgressDocument_marshal_failure
    (docState failedAt : DocumentState) (cancelFlag : task.CancelFlag)
    (w w1 wf : World) (outputs : PluginOutputs) (err : string) :
  engine_run env docState cancelFlag w = (outputs, w1) ->
  (Marshal_outputs env (trace w1) outputs = inr err
   /\ (failedAt, wf) = (docState, w1))
  \/ (is_ok (Marshal_outputs env (trace w1) outputs) = true
      /\ parseAndPersistReplyContents env docState outputs w1 = (failedAt, wf)
      /\ IsRebootRequired env failedAt = false
      /\ Marshal_outputs env (trace wf) outputs = inr err) ->
  ExecuteInProgressDocument env docState cancelFlag w
  = (failedAt,
     {| store := store wf;
        trace := trace wf ++
          [EvLogError ("failed to parse to json string " +:+ err);
           EvUpdateNextScheduledDate
             (AssociationID (DocumentInformation failedAt));
           EvExecuteAssociation] |}).
Proof.
  intros Hrun [[Hm [= -> ->]] | (Hm & Hparse & Hreboot & Hm2)];
    rewrite ExecuteInProgressDocument_defer.
  - rewrite (body_marshal_failed _ _ _ _ _ _ Hrun Hm).
    cbv zeta. unfold after, cleanup_events. cbn [fst snd store trace].
    by rewrite <- app_assoc.
  - destruct (Marshal_outputs env (trace w1) outputs) as [content|] eqn:Hm1;
      [|done].
    rewrite (body_second_marshal_failed _ _ _ _ _ _ _ _ _
               Hrun Hm1 Hparse Hreboot Hm2).
    cbv zeta. unfold after, cleanup_events. cbn [fst snd store trace].
    by rewrite <- app_assoc.
Qed.

End InProgress.

(** ** The properties on the sample runs *)

Lemma ExecutePendingDocument_order_witness :
  store pending_world !! ("doc-1", "i-0123", appconfig.DefaultLocationOfPending)
  = Some sample_info
  /\ (ExecutePendingDocument full_pool_env sample_doc pending_world).1
     = Some "failed to process association, pool is full"
  /\ store (ExecutePendingDocument full_pool_env sample_doc pending_world).2
       !! ("doc-1", "i-0123", appconfig.DefaultLocationOfCurrent)
     = Some sample_info.
Proof.
  assert (store pending_world
            !! ("doc-1", "i-0123", appconfig.DefaultLocationOfPending)
          = Some sample_info) as Hpending by reflexivity.
  split; [exact Hpending|].
  destruct (ExecutePendingDocument_order full_pool_env sample_doc
              pending_world sample_info Hpending)
    as (_ & _ & Herr & _ & Hcurrent & _).
  split; [exact Herr | exact Hcurrent].
Defined.

Lemma ExecuteInProgressDocument_reboot_witness :
  IsRebootRequired reboot_env sample_doc = true
  /\ existsb is_terminal_report
       (trace (ExecuteInProgressDocument reboot_env sample_doc (task.Token 0)
                 current_world).2) = false
  /\ existsb is_move
       (trace (ExecuteInProgressDocument reboot_env sample_doc (task.Token 0)
                 current_world).2) = false.
Proof.
  split; [reflexivity|].
  pose (r1 := engine_run reboot_env sample_doc (task.Token 0) current_world).
  pose (r2 := parseAndPersistReplyContents reboot_env sample_doc r1.1 r1.2).
  pose proof (ExecuteInProgressDocument_reboot reboot_env sample_doc r2.1
                (task.Token 0) current_world r1.2 r2.2 r1.1 "{}"
                eq_refl eq_refl eq_refl eq_refl) as H.
  cbv zeta in H. destruct H as (Hrun & _).
  rewrite Hrun. split; vm_compute; reflexivity.
Defined.

Lemma ExecuteInProgressDocument_terminal_witness :
  trace (ExecuteInProgressDocument failed_env sample_doc (task.Token 0)
           current_world).2
  = [EvExecutePlugin "aws:runShellScript";
     EvUpdateInstanceAssociationStatus "assoc-1" "" "i-0123"
       AssociationStatusInProgress AssociationErrorCodeNoError
       "2016-11-01T00:00:00Z"
       "1 out of 1 plugin processed, 0 success, 1 failed, 0 timedout";
     EvGetDocumentInfo "doc-1" "i-0123" "current";
     EvPersistDocumentInfo
       (ExecuteInProgressDocument failed_env sample_doc (task.Token 0)
          current_world).1.(stateModel.DocumentInformation)
       "doc-1" "i-0123" "current";
     EvUpdateInstanceAssociationStatus "assoc-1" "AWS-RunShellScript" "i-0123"
       AssociationStatusNameFailed AssociationErrorCodeExecutionError
       "2016-11-01T00:00:00Z"
       "1 out of 1 plugin processed, 0 success, 1 failed, 0 timedout";
     EvMoveDocumentState "doc-1" "i-0123" "current" "completed";
     EvUpdateNextScheduledDate "assoc-1";
     EvExecuteAssociation].
Proof.
  pose (r1 := engine_run failed_env sample_doc (task.Token 0) current_world).
  pose (r2 := parseAndPersistReplyContents failed_env sample_doc r1.1 r1.2).
  pose proof (ExecuteInProgressDocument_terminal failed_env sample_doc r2.1
                (task.Token 0) current_world r1.2 r2.2 r1.1 "{}" "{}" "{}"
                eq_refl eq_refl eq_refl eq_refl eq_refl eq_refl) as H.
  cbv zeta in H. destruct H as (Hds & Htrace & _).
  rewrite Htrace, Hds. vm_compute. reflexivity.
Defined.

Lemma ExecuteInProgressDocument_marshal_failure_witness :
  trace (ExecuteInProgressDocument late_failure_env sample_doc (task.Token 0)
           current_world).2
  = trace (parseAndPersistReplyContents late_failure_env sample_doc
             (engine_run late_failure_env sample_doc (task.Token 0)
                current_world).1
             (engine_run late_failure_env sample_doc (task.Token 0)
                current_world).2).2
    ++ [EvLogError "failed to parse to json string json: unsupported type";
        EvUpdateNextScheduledDate "assoc-1";
        EvExecuteAssociation].
Proof.
  pose (r1 := engine_run late_failure_env sample_doc (task.Token 0)
                current_world).
  pose (r2 := parseAndPersistReplyContents late_failure_env sample_doc
                r1.1 r1.2).
  assert (is_ok (Marshal_outputs late_failure_env (trace r1.2) r1.1) = true
          /\ parseAndPersistReplyContents late_failure_env sample_doc r1.1 r1.2
             = (r2.1, r2.2)
          /\ IsRebootRequired late_failure_env r2.1 = false
          /\ Marshal_outputs late_failure_env (trace r2.2) r1.1
             = inr "json: unsupported type") as Hlate
    by (repeat split; reflexivity).
  rewrite (ExecuteInProgressDocument_marshal_failure late_failure_env
             sample_doc r2.1 (task.Token 0) current_world r1.2 r2.2 r1.1
             "json: unsupported type" eq_refl (or_intror Hlate)).
  reflexivity.
Defined.


(** * Further properties of the executer *)

(** ** What [filterByStatus] selects and how the counts relate *)

Section Selection.

Implicit Types (order : list (string * PluginRuntimeStatus)).
Implicit Types (predicate : ResultStatus -> bool).
Implicit Types (m : RuntimeStatuses).

(** X1.  Whatever order the loop of [filterByStatus] visits the entries
    in, its result holds a plugin under a name exactly when the input
    holds that plugin under that name and the predicate accepts its
    status: nothing is invented, renamed or dropped. *)
Theorem filterByStatus_range_lookup order predicate m
    (name : string) (value : PluginRuntimeStatus) :
  order ≡ₚ map_to_list m ->
  filterByStatus_range order predicate !! name = Some value
  <-> m !! name = Some value /\ predicate (Status value) = true.
Proof.
  intros Hperm. rewrite (filterByStatus_range_filter _ _ _ Hperm).
  by rewrite map_lookup_filter_Some.
Qed.

Lemma len_filterByStatus predicate m :
  len (filterByStatus m predicate) = count_status predicate m.
Proof. by apply len_filterByStatus_range. Qed.

(** The three outcome classes exclude each other and all count as set. *)
Lemma status_classes (s : ResultStatus) :
  (is_success s = true ->
   is_set s = true /\ is_failed s = false /\ is_timedOut s = false)
  /\ (is_failed s = true -> is_set s = true /\ is_timedOut s = false)
  /\ (is_timedOut s = true -> is_set s = true).
Proof.
  unfold is_success, is_set, is_failed, is_timedOut.
  split; [|split]; intros H.
  - rewrite !orb_true_iff, !bool_decide_eq_true in H.
    by destruct H as [[-> | ->] | ->].
  - apply bool_decide_eq_true in H. by subst s.
  - apply bool_decide_eq_true in H. by subst s.
Qed.

Lemma count_classes (l : list (string * PluginRuntimeStatus)) :
  (length (filter (fun kv => is_success (Status kv.2) = true) l)
   + length (filter (fun kv => is_failed (Status kv.2) = true) l)
   + length (filter (fun kv => is_timedOut (Status kv.2) = true) l)
   <= length (filter (fun kv => is_set (Status kv.2) = true) l))%nat.
Proof.
  induction l as [|kv l IH]; [done|]. rewrite !filter_cons.
  destruct (status_classes (Status kv.2)) as (Hs & Hf & Ht).
  destruct (is_success (Status kv.2)) eqn:Es;
    destruct (is_failed (Status kv.2)) eqn:Ef;
    destruct (is_timedOut (Status kv.2)) eqn:Et;
    destruct (is_set (Status kv.2)) eqn:Eq;
    repeat case_decide; try done; cbn [length];
    try lia; exfalso;
    try (destruct Hs as (? & ? & ?); [done|]; congruence);
    try (destruct Hf as (? & ?); [done|]; congruence);
    try (specialize (Ht eq_refl); congruence).
Qed.

(** X2.  The four numbers [buildOutput] computes are ordered: the
    succeeded, failed and timed-out plugins are disjoint groups of the
    processed ones, and the processed ones are among the entries of the
    map.  So succeeded + failed + timedOut <= processed <= len(map), and
    none of them is negative. *)
Theorem buildOutput_counts_ordered m :
  0 <= len (filterByStatus m is_success)
  /\ 0 <= len (filterByStatus m is_failed)
  /\ 0 <= len (filterByStatus m is_timedOut)
  /\ len (filterByStatus m is_success) + len (filterByStatus m is_failed)
     + len (filterByStatus m is_timedOut)
     <= len (filterByStatus m is_set)
  /\ len (filterByStatus m is_set) <= len m.
Proof.
  rewrite !len_filterByStatus. unfold count_status, len.
  pose proof (count_classes (map_to_list m)) as Hclasses.
  pose proof (length_filter
                (fun kv : string * PluginRuntimeStatus =>
                   is_set (Status kv.2) = true) (map_to_list m)) as Hset.
  rewrite length_map_to_list in Hset. lia.
Qed.

Lemma count_status_fmap (P : ResultStatus -> bool)
    (f : PluginRuntimeStatus -> PluginRuntimeStatus) m :
  (forall v, Status (f v) = Status v) ->
  count_status P (f <$> m) = count_status P m.
Proof.
  intros Hf. unfold count_status. f_equal.
  rewrite map_to_list_fmap.
  induction (map_to_list m) as [|[k v] l IH]; [done|].
  rewrite fmap_cons, !filter_cons. cbn [prod_map fst snd].
  rewrite Hf. case_decide; cbn [length]; by rewrite IH.
Qed.

(** X3.  The summary depends on the statuses alone: rewriting the other
    fields of the runtime statuses (code, output, start and end time)
    leaves the sentence of [buildOutput] unchanged. *)
Theorem buildOutput_status_only
    (f : PluginRuntimeStatus -> PluginRuntimeStatus) m (total : Z) :
  (forall v, Status (f v) = Status v) ->
  buildOutput (f <$> m) total = buildOutput m total.
Proof.
  intros Hf. rewrite !buildOutput_sentence.
  unfold processed_spec, succeeded_spec, failed_spec, timedOut_spec.
  by rewrite !(count_status_fmap _ f m Hf).
Qed.

(** X4.  A result recorded under a name the map does not hold yet raises
    the number [filterByStatus] selects by one when the predicate accepts
    its status and leaves it as it is otherwise. *)
Theorem filterByStatus_insert_fresh predicate m
    (name : string) (value : PluginRuntimeStatus) :
  m !! name = None ->
  len (filterByStatus (<[name := value]> m) predicate)
  = len (filterByStatus m predicate)
    + (if predicate (Status value) then 1 else 0).
Proof.
  intros Hfresh. rewrite !len_filterByStatus. unfold count_status.
  rewrite (map_to_list_insert m name value Hfresh), filter_cons. cbn [snd].
  destruct (predicate (Status value)); case_decide; try done;
    cbn [length]; lia.
Qed.

(** X5.  On a map without entries [buildOutput] reports zero processed,
    succeeded, failed and timed-out plugins out of the declared total,
    whatever that total is. *)
Theorem buildOutput_empty (total : Z) :
  buildOutput ∅ total
  = "0 out of " +:+ pretty total +:+ " plugin"
    +:+ (if bool_decide (1 < total) then "s" else "")
    +:+ " processed, 0 success, 0 failed, 0 timedout".
Proof. by rewrite buildOutput_sentence. Qed.

End Selection.

(** ** What the lifecycle routines leave alone, and how they compose *)

Section Lifecycle.

Variable env : Env.
Import stateModel.

(** X6.  [ExecutePendingDocument] touches the store only at the "pending"
    and "current" slots of the document it is given: every other record
    is afterwards what it was before. *)
Theorem ExecutePendingDocument_frame
    (docState : DocumentState) (w : World) (key : string * string * string) :
  let docInfo := DocumentInformation docState in
  key <> (DocumentID docInfo, InstanceID docInfo,
          appconfig.DefaultLocationOfPending) ->
  key <> (DocumentID docInfo, InstanceID docInfo,
          appconfig.DefaultLocationOfCurrent) ->
  store (ExecutePendingDocument env docState w).2 !! key = store w !! key.
Proof.
  intros docInfo Hpending Hcurrent.
  rewrite ExecutePendingDocument_run. cbn [snd store]. fold docInfo.
  destruct (store w !! (DocumentID docInfo, InstanceID docInfo,
                        appconfig.DefaultLocationOfPending)); [|done].
  rewrite lookup_insert_ne by done. by rewrite lookup_delete_ne.
Qed.

(** The body of the run writes to "current" and "completed" only and
    hands the plugin list back as it got it. *)
Lemma body_frame docState cancelFlag (w : World) :
  let r := ExecuteInProgressDocument_body env docState cancelFlag w in
  InstancePluginsInformation r.1 = InstancePluginsInformation docState
  /\ forall documentID instanceID location,
       location <> appconfig.DefaultLocationOfCurrent ->
       location <> appconfig.DefaultLocationOfCompleted ->
       store r.2 !! (documentID, instanceID, location)
       = store w !! (documentID, instanceID, location).
Proof.
  cbv zeta.
  destruct (engine_run env docState cancelFlag w) as [outputs w1] eqn:Hrun.
  destruct (engine_run_progress _ _ _ _ _ _ Hrun) as [_ Hstore1].
  destruct (Marshal_outputs env (trace w1) outputs) as [content|err] eqn:Hm.
  2:{ erewrite body_marshal_failed by eauto. cbn [fst snd after store].
      split; [done|]. intros. by rewrite Hstore1. }
  destruct (parseAndPersistReplyContents env docState outputs w1)
    as [docState2 w2] eqn:Hparse.
  pose proof Hparse as Hparse'.
  rewrite parseAndPersistReplyContents_run in Hparse'.
  injection Hparse' as Hds Hw.
  assert (InstancePluginsInformation docState2
          = InstancePluginsInformation docState) as Hplugins
    by (by rewrite <- Hds).
  assert (forall documentID instanceID location,
            location <> appconfig.DefaultLocationOfCurrent ->
            store w2 !! (documentID, instanceID, location)
            = store w !! (documentID, instanceID, location)) as Hstore2.
  { intros d i l Hl. rewrite <- Hw. cbn [store].
    rewrite lookup_insert_ne by congruence. by rewrite Hstore1. }
  destruct (IsRebootRequired env docState2) eqn:Hreboot.
  { erewrite body_reboot by eauto. cbn [fst snd]. split; [done|].
    intros. by apply Hstore2. }
  destruct (Marshal_outputs env (trace w2) outputs) as [content2|err] eqn:Hm2.
  2:{ erewrite body_second_marshal_failed by eauto.
      cbn [fst snd after store]. split; [done|]. intros. by apply Hstore2. }
  erewrite body_completed by eauto. cbn [fst snd store]. split; [done|].
  intros d i l Hcur Hcompl. unfold completed_store.
  rewrite lookup_insert_ne by congruence.
  rewrite lookup_delete_ne by congruence. by apply Hstore2.
Qed.

(** X7.  Whichever way [ExecuteInProgressDocument] returns, the plugin
    list of the document state is the one it was given, and no record
    outside the "current" and "completed" locations has changed; in
    particular nothing is ever put back into "pending". *)
Theorem ExecuteInProgressDocument_frame
    (docState : DocumentState) (cancelFlag : task.CancelFlag) (w : World)
    (documentID instanceID location : string) :
  location <> appconfig.DefaultLocationOfCurrent ->
  location <> appconfig.DefaultLocationOfCompleted ->
  let r := ExecuteInProgressDocument env docState cancelFlag w in
  InstancePluginsInformation r.1 = InstancePluginsInformation docState
  /\ store r.2 !! (documentID, instanceID, location)
     = store w !! (documentID, instanceID, location).
Proof.
  intros Hcur Hcompl r. subst r. rewrite ExecuteInProgressDocument_defer.
  destruct (body_frame docState cancelFlag w) as [Hplugins Hstore].
  cbv zeta in *. cbn [fst snd]. unfold after. cbn [store].
  split; [done|]. by apply Hstore.
Qed.

(** X8.  Once the outputs have marshalled, the association whose next run
    is recomputed on exit is the one named by the record reloaded from
    "current", not the one named by the document state handed in: the
    deferred function reads the document state as the reload left it. *)
Theorem ExecuteInProgressDocument_reschedules_reloaded
    (docState : DocumentState) (cancelFlag : task.CancelFlag)
    (w w1 : World) (outputs : PluginOutputs) (content : string) :
  engine_run env docState cancelFlag w = (outputs, w1) ->
  Marshal_outputs env (trace w1) outputs = inl content ->
  let r := ExecuteInProgressDocument env docState cancelFlag w in
  AssociationID (DocumentInformation r.1)
  = AssociationID (reloaded_info docState w1)
  /\ exists calls,
       trace r.2
       = calls ++ [EvUpdateNextScheduledDate
                     (AssociationID (reloaded_info docState w1));
                   EvExecuteAssociation].
Proof.
  intros Hrun Hm r. subst r. rewrite ExecuteInProgressDocument_defer.
  destruct (parseAndPersistReplyContents env docState outputs w1)
    as [docState2 w2] eqn:Hparse.
  assert (AssociationID (DocumentInformation docState2)
          = AssociationID (reloaded_info docState w1)) as Hid.
  { rewrite parseAndPersistReplyContents_run in Hparse.
    injection Hparse as Hds _. by rewrite <- Hds. }
  assert ((ExecuteInProgressDocument_body env docState cancelFlag w).1
          = docState2) as Hret.
  { destruct (IsRebootRequired env docState2) eqn:Hreboot.
    - by erewrite body_reboot by eauto.
    - destruct (Marshal_outputs env (trace w2) outputs) eqn:Hm2.
      + by erewrite body_completed by eauto.
      + by erewrite body_second_marshal_failed by eauto. }
  cbv zeta. cbn [fst snd]. rewrite Hret. split; [exact Hid|].
  unfold after, cleanup_events. cbn [trace]. rewrite Hid. by eexists.
Qed.

(** X9.  When marshalling fails right after the engine returned, the run
    hands the document state back untouched and leaves the whole store
    exactly as it found it: nothing is reloaded, persisted or moved. *)
Theorem ExecuteInProgressDocument_early_failure_inert
    (docState : DocumentState) (cancelFlag : task.CancelFlag)
    (w w1 : World) (outputs : PluginOutputs) (err : string) :
  engine_run env docState cancelFlag w = (outputs, w1) ->
  Marshal_outputs env (trace w1) outputs = inr err ->
  let r := ExecuteInProgressDocument env docState cancelFlag w in
  r.1 = docState
  /\ store r.2 = store w
  /\ forallb (fun e => negb (is_store_access e) && negb (is_move e))
       (drop (length (trace w)) (trace r.2)) = true.
Proof.
  intros Hrun Hm r. subst r. rewrite ExecuteInProgressDocument_defer.
  rewrite (body_marshal_failed _ _ _ _ _ _ _ Hrun Hm).
  destruct (engine_run_progress _ _ _ _ _ _ Hrun)
    as [(calls & Htrace & Hprogress) Hstore1].
  cbv zeta. cbn [fst snd]. unfold after, cleanup_events. cbn [store trace].
  split; [done|]. split; [done|].
  rewrite Htrace, <- !app_assoc, drop_app_length.
  rewrite forallb_app. apply andb_true_iff. split; [|reflexivity].
  apply forallb_forall. intros e He.
  eapply forallb_forall in Hprogress; [|exact He].
  by destruct e as [? ? ? [] | | | | | | | |].
Qed.

(** X10.  The whole life of a document.  Take a document whose record
    waits in "pending" under the document's own ids.  Enqueue it with
    [ExecutePendingDocument] and let the pool run the submitted job.  If
    the outputs marshal both times and no reboot is required, the record
    ends in "completed", merged with the reply, with the ids it had in
    "pending"; "pending" and "current" no longer hold it. *)
Theorem pending_to_completed
    (docState : DocumentState) (cancelFlag : task.CancelFlag) (w : World)
    (info : DocumentInfo) :
  let docInfo := DocumentInformation docState in
  let enqueued := (ExecutePendingDocument env docState w).2 in
  let engine := engine_run env docState cancelFlag enqueued in
  let persisted := parseAndPersistReplyContents env docState engine.1 engine.2 in
  let r := runJob env (ExecuteInProgressDocumentJob docState) cancelFlag
             enqueued in
  let key location := (DocumentID docInfo, InstanceID docInfo, location) in
  store w !! key appconfig.DefaultLocationOfPending = Some info ->
  DocumentID info = DocumentID docInfo ->
  InstanceID info = InstanceID docInfo ->
  is_ok (Marshal_outputs env (trace engine.2) engine.1) = true ->
  IsRebootRequired env persisted.1 = false ->
  is_ok (Marshal_outputs env (trace persisted.2) engine.1) = true ->
  store r.2 !! key appconfig.DefaultLocationOfCompleted
  = Some (overlay info (reply_payload env docState engine.1 engine.2))
  /\ store r.2 !! key appconfig.DefaultLocationOfCurrent = None
  /\ store r.2 !! key appconfig.DefaultLocationOfPending = None.
Proof.
  intros docInfo enqueued engine persisted r key
    Hpending HdocID Hinstance Hm1 Hreboot Hm2.
  assert (store enqueued !! key appconfig.DefaultLocationOfCurrent = Some info
          /\ store enqueued !! key appconfig.DefaultLocationOfPending = None)
    as [Hcurrent Hgone].
  { subst enqueued. rewrite ExecutePendingDocument_run. cbn [snd store].
    fold docInfo. fold (key appconfig.DefaultLocationOfPending).
    rewrite Hpending. split.
    - apply lookup_insert_eq.
    - rewrite lookup_insert_ne by (unfold key; intros [=]; discriminate).
      apply lookup_delete_eq. }
  subst persisted engine r. revert Hm1 Hreboot Hm2.
  destruct (engine_run env docState cancelFlag enqueued)
    as [outputs w1] eqn:Hrun. cbn [fst snd].
  destruct (engine_run_progress _ _ _ _ _ _ Hrun) as [_ Hstore1].
  destruct (parseAndPersistReplyContents env docState outputs w1)
    as [docState2 w2] eqn:Hparse. cbn [fst snd].
  intros Hm1 Hreboot Hm2.
  destruct (Marshal_outputs env (trace w1) outputs) as [c1|] eqn:E1; [|done].
  destruct (Marshal_outputs env (trace w2) outputs) as [c2|] eqn:E2; [|done].
  assert (reloaded_info docState w1 = info) as Hreloaded.
  { unfold reloaded_info. fold docInfo.
    fold (key appconfig.DefaultLocationOfCurrent).
    by rewrite Hstore1, Hcurrent. }
  pose proof Hparse as Hparse'.
  rewrite parseAndPersistReplyContents_run, Hreloaded in Hparse'.
  cbv zeta in Hparse'. injection Hparse' as Hds Hw.
  set (merged := overlay info (reply_payload env docState outputs w1)) in *.
  assert (DocumentInformation docState2 = merged) as Hmerged
    by (by rewrite <- Hds).
  assert (DocumentID merged = DocumentID docInfo) as HidD
    by (subst merged; exact HdocID).
  assert (InstanceID merged = InstanceID docInfo) as HidI
    by (subst merged; exact Hinstance).
  cbn [runJob]. rewrite ExecuteInProgressDocument_defer.
  rewrite (body_completed _ _ _ _ _ _ _ _ _ _ Hrun E1 Hparse Hreboot E2).
  cbv zeta. cbn [fst snd]. unfold after. cbn [store].
  rewrite Hmerged. unfold completed_store. rewrite HidD, HidI.
  fold (key appconfig.DefaultLocationOfCompleted).
  fold (key appconfig.DefaultLocationOfCurrent).
  split; [apply lookup_insert_eq|]. split.
  - rewrite lookup_insert_ne by (unfold key; intros [=]; discriminate).
    apply lookup_delete_eq.
  - rewrite lookup_insert_ne by (unfold key; intros [=]; discriminate).
    rewrite lookup_delete_ne by (unfold key; intros [=]; discriminate).
    rewrite <- Hw. cbn [store].
    rewrite lookup_insert_ne by (unfold key; intros [=]; discriminate).
    by rewrite Hstore1.
Qed.

End Lifecycle.

(** ** The further properties on the sample runs *)

Lemma filterByStatus_range_lookup_witness :
  filterByStatus_range (reverse (map_to_list two_plugins)) is_failed
    !! "aws:applications" = Some (status_of ResultStatusFailed).
Proof.
  apply (proj2 (filterByStatus_range_lookup
                  (reverse (map_to_list two_plugins)) is_failed two_plugins
                  "aws:applications" (status_of ResultStatusFailed)
                  (reverse_Permutation _))).
  split; reflexivity.
Defined.

Lemma buildOutput_status_only_witness :
  buildOutput (with_output "exit status 1" <$> two_plugins) 2
  = buildOutput two_plugins 2.
Proof.
  apply (buildOutput_status_only (with_output "exit status 1") two_plugins 2).
  intros v. reflexivity.
Defined.

Lemma filterByStatus_insert_fresh_witness :
  two_plugins !! "aws:psModule" = None
  /\ len (filterByStatus
            (<["aws:psModule" := status_of ResultStatusTimedOut]> two_plugins)
            is_timedOut) = 1.
Proof.
  assert (two_plugins !! "aws:psModule" = None) as Hfresh by reflexivity.
  split; [exact Hfresh|].
  rewrite (filterByStatus_insert_fresh is_timedOut two_plugins "aws:psModule"
             (status_of ResultStatusTimedOut) Hfresh).
  reflexivity.
Defined.

Lemma ExecutePendingDocument_frame_witness :
  store (ExecutePendingDocument full_pool_env sample_doc two_docs_world).2
    !! ("doc-2", "i-0123", appconfig.DefaultLocationOfPending)
  = Some sample_info.
Proof.
  rewrite (ExecutePendingDocument_frame full_pool_env sample_doc
             two_docs_world
             ("doc-2", "i-0123", appconfig.DefaultLocationOfPending)).
  - reflexivity.
  - intros [=].
  - intros [=].
Defined.

Lemma ExecuteInProgressDocument_frame_witness :
  store (ExecuteInProgressDocument success_env sample_doc (task.Token 0)
           two_docs_world).2
    !! ("doc-2", "i-0123", appconfig.DefaultLocationOfPending)
  = Some sample_info.
Proof.
  destruct (ExecuteInProgressDocument_frame success_env sample_doc
              (task.Token 0) two_docs_world
              "doc-2" "i-0123" appconfig.DefaultLocationOfPending)
    as [_ Hstore].
  - intros [=].
  - intros [=].
  - rewrite Hstore. reflexivity.
Defined.

Lemma ExecuteInProgressDocument_reschedules_reloaded_witness :
  stateModel.AssociationID (stateModel.DocumentInformation sample_doc)
  = "assoc-1"
  /\ stateModel.AssociationID
       (stateModel.DocumentInformation
          (ExecuteInProgressDocument success_env sample_doc (task.Token 0)
             stale_world).1) = "assoc-2".
Proof.
  split; [reflexivity|].
  pose (r1 := engine_run success_env sample_doc (task.Token 0) stale_world).
  pose proof (ExecuteInProgressDocument_reschedules_reloaded success_env
                sample_doc (task.Token 0) stale_world r1.2 r1.1 "{}"
                eq_refl eq_refl) as H.
  cbv zeta in H. destruct H as [Hid _]. rewrite Hid. reflexivity.
Defined.

Lemma ExecuteInProgressDocument_early_failure_inert_witness :
  store (ExecuteInProgressDocument early_failure_env sample_doc (task.Token 0)
           current_world).2
  = store current_world.
Proof.
  pose (r1 := engine_run early_failure_env sample_doc (task.Token 0)
                current_world).
  pose proof (ExecuteInProgressDocument_early_failure_inert early_failure_env
                sample_doc (task.Token 0) current_world r1.2 r1.1
                "json: unsupported type" eq_refl eq_refl) as H.
  cbv zeta in H. destruct H as (_ & Hstore & _). exact Hstore.
Defined.

Lemma pending_to_completed_witness :
  store (runJob success_env (ExecuteInProgressDocumentJob sample_doc)
           (task.Token 0)
           (ExecutePendingDocument success_env sample_doc pending_world).2).2
    !! ("doc-1", "i-0123", appconfig.DefaultLocationOfCurrent) = None
  /\ store (runJob success_env (ExecuteInProgressDocumentJob sample_doc)
              (task.Token 0)
              (ExecutePendingDocument success_env sample_doc pending_world).2).2
       !! ("doc-1", "i-0123", appconfig.DefaultLocationOfPending) = None.
Proof.
  pose proof (pending_to_completed success_env sample_doc (task.Token 0)
                pending_world sample_info
                eq_refl eq_refl eq_refl eq_refl eq_refl eq_refl) as H.
  cbv zeta in H. destruct H as (_ & Hcurrent & Hpending).
  split; [exact Hcurrent | exact Hpending].
Defined.

(** ** How often a run reports and moves *)

Section AtMostOnce.

Variable env : Env.
Import stateModel.

Lemma filter_none (P Q : Event -> bool) (l : list Event) :
  forallb P l = true ->
  (forall e, P e = true -> Q e = false) ->
  filter (fun e => Q e = true) l = [].
Proof.
  intros Hall HPQ. induction l as [|e l IH]; [done|].
  cbn in Hall. apply andb_true_iff in Hall as [He Hl].
  rewrite filter_cons_False; [by apply IH|]. by rewrite (HPQ e He).
Qed.

(** Count the matching events of an explicit list. *)
Ltac count_tail :=
  rewrite ?filter_cons, ?filter_nil; repeat case_decide;
  rewrite ?length_app; cbn [length app]; try done; lia.

Lemma terminal_events_at_most_one docInfo total h :
  (length (filter (fun e => is_terminal_report e = true)
             (terminal_events env docInfo total h)) <= 1)%nat
  /\ filter (fun e => is_move e = true) (terminal_events env docInfo total h)
     = [].
Proof.
  unfold terminal_events, report_events.
  repeat case_bool_decide;
    destruct (Marshal_statuses env h (RuntimeStatus docInfo));
    split; rewrite ?filter_cons, ?filter_nil; repeat case_decide;
    cbn [length]; try done; lia.
Qed.

(** X11.  One invocation of [ExecuteInProgressDocument] reports at most
    one terminal status and moves at most one record, and it never
    reports a terminal status without moving the record afterwards: among
    the calls it adds, terminal reports <= moves <= 1. *)
Theorem ExecuteInProgressDocument_reports_at_most_once
    (docState : DocumentState) (cancelFlag : task.CancelFlag) (w : World) :
  let r := ExecuteInProgressDocument env docState cancelFlag w in
  exists calls,
    trace r.2 = trace w ++ calls
    /\ (length (filter (fun e => is_terminal_report e = true) calls)
        <= length (filter (fun e => is_move e = true) calls))%nat
    /\ (length (filter (fun e => is_move e = true) calls) <= 1)%nat.
Proof.
  intros r. subst r. rewrite ExecuteInProgressDocument_defer. cbv zeta.
  destruct (engine_run env docState cancelFlag w) as [outputs w1] eqn:Hrun.
  destruct (engine_run_progress _ _ _ _ _ _ Hrun)
    as [(c1 & Htrace1 & Hprogress) _].
  assert (filter (fun e => is_terminal_report e = true) c1 = []) as Hr1.
  { apply (filter_none is_progress); [done|].
    by intros [? ? ? [] | | | | | | | |]. }
  assert (filter (fun e => is_move e = true) c1 = []) as Hm1.
  { apply (filter_none is_progress); [done|]. by intros []. }
  destruct (Marshal_outputs env (trace w1) outputs) as [content|err] eqn:Hm.
  2:{ erewrite body_marshal_failed by eauto. cbn [fst snd].
      unfold after, cleanup_events. cbn [trace].
      rewrite Htrace1, <- !app_assoc. eexists. split; [reflexivity|].
      rewrite !filter_app, Hr1, Hm1. count_tail. }
  destruct (parseAndPersistReplyContents env docState outputs w1)
    as [docState2 w2] eqn:Hparse.
  destruct (parse_store_access _ _ _ _ _ _ Hparse) as (c2 & Htrace2 & Haccess).
  assert (filter (fun e => is_terminal_report e = true) c2 = []) as Hr2.
  { apply (filter_none is_store_access); [done|]. by intros []. }
  assert (filter (fun e => is_move e = true) c2 = []) as Hm2.
  { apply (filter_none is_store_access); [done|]. by intros []. }
  destruct (IsRebootRequired env docState2) eqn:Hreboot.
  { erewrite body_reboot by eauto. cbn [fst snd].
    unfold after, cleanup_events. cbn [trace].
    rewrite Htrace2, Htrace1, <- !app_assoc. eexists. split; [reflexivity|].
    rewrite !filter_app, Hr1, Hm1, Hr2, Hm2. count_tail. }
  destruct (Marshal_outputs env (trace w2) outputs) as [content2|err] eqn:Hmb.
  2:{ erewrite body_second_marshal_failed by eauto. cbn [fst snd].
      unfold after, cleanup_events. cbn [trace].
      rewrite Htrace2, Htrace1, <- !app_assoc. eexists. split; [reflexivity|].
      rewrite !filter_app, Hr1, Hm1, Hr2, Hm2. count_tail. }
  erewrite body_completed by eauto. cbn [fst snd].
  unfold after, cleanup_events. cbn [trace].
  set (reports := terminal_events env _ _ _).
  destruct (terminal_events_at_most_one
              (DocumentInformation docState2)
              (Z.of_nat (length (InstancePluginsInformation docState)))
              (trace w2)) as [Hone Hnomove].
  fold reports in Hone, Hnomove.
  rewrite Htrace2, Htrace1, <- !app_assoc. eexists. split; [reflexivity|].
  rewrite !filter_app, Hr1, Hm1, Hr2, Hm2, Hnomove. count_tail.
Qed.

End AtMostOnce.
